(** * HashiCorp Boundary "cancel session" action: a shallow embedding

    The action (src/script.mjs) validates two identifiers, authenticates
    against the Boundary API, reads the version of a session and cancels
    it.  The embedding follows the JavaScript source statement by
    statement: JavaScript values with their truthiness, the script's two
    error classes next to the errors foreign code throws, and an effect
    monad in which [fetch], the console, the timer and the clock are
    events answered by the world the script runs in.

    Platform functions the script calls ([trim], [encodeURIComponent],
    [toISOString], the conversion of a value to a string) are defined
    here for strings of code units below 256 and integer numbers; what
    the script imports ([SGNL_USER_AGENT], [getBaseURL]) and
    [JSON.stringify] are parameters of the script. *)

From Stdlib Require Import ZArith Lia Bool List String Ascii.
From Stdlib Require Import DecimalString.
From stdpp Require Import base option gmap strings.

Set Warnings "-register-all".

Open Scope string_scope.
Open Scope list_scope.
Open Scope Z_scope.

(** ** JavaScript values

    Strings are sequences of code units below 256 (one [ascii] each).
    [JsNumber n] is the Number value of the integer literal [n], as
    [JSON.parse] reads it: the double nearest to [n].  Objects are
    finite maps from the names of their own properties to values, all
    of them data properties, as in a parsed JSON text. *)

Inductive JsValue : Type :=
| JsUndefined
| JsNull
| JsBool (b : bool)
| JsNumber (n : Z)
| JsString (s : string)
| JsArray (items : list JsValue)
| JsObject (props : gmap string JsValue).

Definition obj (kvs : list (string * JsValue)) : JsValue :=
  JsObject (list_to_map kvs).

(** ToBoolean: [undefined], [null], [false], [0] and the empty string
    are falsy, everything else (objects and arrays included) is truthy. *)
Definition truthy (v : JsValue) : bool :=
  match v with
  | JsUndefined | JsNull => false
  | JsBool b => b
  | JsNumber n => negb (n =? 0)
  | JsString s => negb (String.eqb s "")
  | JsArray _ | JsObject _ => true
  end.

(** An error object that is not an instance of the script's two
    classes: what the platform, the transport or an imported function
    throws. *)
Record ForeignError : Type := {
  error_name : string;
  error_message : string
}.

Definition TypeError (msg : string) : ForeignError :=
  {| error_name := "TypeError"; error_message := msg |}.

(** ** Strings

    The string operations of the platform that the script calls:
    number-to-string conversion, [String.prototype.trim],
    [encodeURIComponent] and the conversion a template literal applies
    to an interpolated value. *)

(** The decimal digits of a natural number. *)
Definition decimal (n : Z) : string :=
  NilZero.string_of_int (Z.to_int n).

(** The double nearest to an integer, ties to even; a magnitude of two
    to the 1024 stands for [Infinity]. *)
Definition to_double (z : Z) : Z :=
  let a := Z.abs z in
  if a <? 2 ^ 53 then z
  else
    let e := Z.log2 a - 52 in
    let q := Z.shiftr a e in
    let r := a mod 2 ^ e in
    let half := 2 ^ (e - 1) in
    let q' := if (half <? r) || ((r =? half) && Z.odd q) then q + 1 else q in
    Z.sgn z * Z.min (Z.shiftl q' e) (2 ^ 1024).

(** Among the multiples of [scale] next to [x], one that denotes the
    same double as [x]: the closer one when both do, the one with the
    even digit when they are equally close. *)
Definition candidate (x scale : Z) : option Z :=
  let lo := x / scale * scale in
  let hi := lo + scale in
  match to_double lo =? x, to_double hi =? x with
  | true, true =>
      if x - lo <? hi - x then Some lo
      else if hi - x <? x - lo then Some hi
      else if Z.even (x / scale) then Some lo else Some hi
  | true, false => Some lo
  | false, true => Some hi
  | false, false => None
  end.

(** The integer with the fewest significant digits that denotes the
    double [x]: multiples of ten to the [exp], then of ten to the
    [exp - 1], and so on, are tried. *)
Fixpoint shortest (x : Z) (exp : nat) : Z :=
  match exp with
  | O => x
  | S exp' =>
      match candidate x (10 ^ Z.of_nat exp) with
      | Some v => v
      | None => shortest x exp'
      end
  end.

Fixpoint strip_zeros (digits : string) : string :=
  match digits with
  | EmptyString => EmptyString
  | String c rest =>
      match strip_zeros rest with
      | EmptyString => if Ascii.eqb c "0" then EmptyString else String c EmptyString
      | kept => String c kept
      end
  end.

(** [Number::toString] in radix 10, for integers: the shortest digits
    that read back as the same double, written in full up to 21 digits
    and in exponent form beyond. *)
Definition Number_toString (n : Z) : string :=
  let x := to_double n in
  let a := Z.abs x in
  let sign := if x <? 0 then "-" else "" in
  if a =? 0 then "0"
  else if 2 ^ 1024 <=? a then sign +:+ "Infinity"
  else
    let digits := decimal (shortest a (String.length (decimal a) - 1)) in
    let count := Z.of_nat (String.length digits) in
    if count <=? 21 then sign +:+ digits
    else
      match strip_zeros digits with
      | EmptyString => "0"
      | String d EmptyString => sign +:+ String d EmptyString +:+ "e+" +:+ decimal (count - 1)
      | String d rest => sign +:+ String d ("." +:+ rest) +:+ "e+" +:+ decimal (count - 1)
      end.

(** What [ToString] throws for an object that has no callable
    [toString] or [valueOf]. *)
Definition cannot_convert : ForeignError :=
  TypeError "Cannot convert object to primitive value".

(** [ToString], as a template literal and [encodeURIComponent] apply it.
    An array is joined, its elements converted in turn.  An object is
    printed by [Object.prototype.toString] unless it has an own
    [toString] property: that one is data, not a function, it hides the
    inherited method, and the [valueOf] that is tried next gives no
    primitive, so the conversion throws. *)
Fixpoint ToString (v : JsValue) : ForeignError + string :=
  match v with
  | JsUndefined => inr "undefined"
  | JsNull => inr "null"
  | JsBool b => inr (if b then "true" else "false")
  | JsNumber n => inr (Number_toString n)
  | JsString s => inr s
  | JsArray items =>
      let element x :=
        match x with
        | JsUndefined | JsNull => inr ""
        | _ => ToString x
        end in
      (fix join (l : list JsValue) : ForeignError + string :=
         match l with
         | [] => inr ""
         | [x] => element x
         | x :: rest =>
             match element x with
             | inl e => inl e
             | inr first =>
                 match join rest with
                 | inl e => inl e
                 | inr others => inr (first +:+ "," +:+ others)
                 end
             end
         end) items
  | JsObject props =>
      match props !! "toString" with
      | Some _ => inl cannot_convert
      | None => inr "[object Object]"
      end
  end.

(** White space and line terminators among the code units below 256:
    TAB, LF, VT, FF, CR, SPACE and NO-BREAK SPACE. *)
Definition is_white_space (c : ascii) : bool :=
  let n := Z.of_N (N_of_ascii c) in
  ((9 <=? n) && (n <=? 13)) || (n =? 32) || (n =? 160).

Fixpoint trimStart (s : string) : string :=
  match s with
  | EmptyString => EmptyString
  | String c rest => if is_white_space c then trimStart rest else s
  end.

Fixpoint trimEnd (s : string) : string :=
  match s with
  | EmptyString => EmptyString
  | String c rest =>
      match trimEnd rest with
      | EmptyString => if is_white_space c then EmptyString else String c EmptyString
      | kept => String c kept
      end
  end.

Definition trim (s : string) : string := trimEnd (trimStart s).

Definition hex_digit (n : Z) : ascii :=
  ascii_of_N (Z.to_N (if n <? 10 then 48 + n else 55 + n)).

Definition percent_byte (b : Z) : string :=
  String "%" (String (hex_digit (b / 16)) (String (hex_digit (b mod 16)) EmptyString)).

(** The characters [encodeURIComponent] leaves alone: letters, digits
    and [- _ . ! ~ * ' ( )]. *)
Definition uri_unreserved (c : ascii) : bool :=
  let n := Z.of_N (N_of_ascii c) in
  ((65 <=? n) && (n <=? 90)) || ((97 <=? n) && (n <=? 122)) ||
  ((48 <=? n) && (n <=? 57)) ||
  (n =? 45) || (n =? 95) || (n =? 46) || (n =? 33) || (n =? 126) ||
  (n =? 42) || (n =? 39) || (n =? 40) || (n =? 41).

(** Every other code unit is written as the percent-escaped bytes of its
    UTF-8 encoding (one byte below 128, two from 128 to 255). *)
Fixpoint encodeURIComponent (s : string) : string :=
  match s with
  | EmptyString => EmptyString
  | String c rest =>
      let n := Z.of_N (N_of_ascii c) in
      (if uri_unreserved c then String c EmptyString
       else if n <? 128 then percent_byte n
       else percent_byte (192 + n / 64) +:+ percent_byte (128 + n mod 64))
      +:+ encodeURIComponent rest
  end.

(** ** Dates

    [new Date().toISOString()] prints a time value (milliseconds since
    1970-01-01T00:00:00Z) as [YYYY-MM-DDTHH:mm:ss.sssZ]; years outside
    0..9999 are printed with a sign and six digits.  The calendar fields
    are computed from the day number by the usual era/year-of-era
    decomposition of the proleptic Gregorian calendar. *)

Definition msPerDay : Z := 86400000.

Definition Day (t : Z) : Z := t / msPerDay.
Definition TimeWithinDay (t : Z) : Z := t mod msPerDay.

Definition HourFromTime (t : Z) : Z := TimeWithinDay t / 3600000.
Definition MinFromTime (t : Z) : Z := (TimeWithinDay t / 60000) mod 60.
Definition SecFromTime (t : Z) : Z := (TimeWithinDay t / 1000) mod 60.
Definition msFromTime (t : Z) : Z := TimeWithinDay t mod 1000.

(** Day number within the 400-year era that starts on 1 March, and the
    year, day of year and month (counted from March) within it. *)
Definition day_of_era (t : Z) : Z := (Day t + 719468) mod 146097.
Definition era (t : Z) : Z := (Day t + 719468) / 146097.
Definition year_of_era (t : Z) : Z :=
  let doe := day_of_era t in
  (doe - doe / 1460 + doe / 36524 - doe / 146096) / 365.
Definition day_of_year (t : Z) : Z :=
  let yoe := year_of_era t in
  day_of_era t - (365 * yoe + yoe / 4 - yoe / 100).
Definition month_from_march (t : Z) : Z := (5 * day_of_year t + 2) / 153.

(** The month as printed (1..12), the day of the month (1..31) and the
    year. *)
Definition MonthFromTime (t : Z) : Z :=
  let mp := month_from_march t in
  if mp <? 10 then mp + 3 else mp - 9.
Definition DateFromTime (t : Z) : Z :=
  day_of_year t - (153 * month_from_march t + 2) / 5 + 1.
Definition YearFromTime (t : Z) : Z :=
  year_of_era t + era t * 400 + (if MonthFromTime t <=? 2 then 1 else 0).

Definition digit_char (d : Z) : ascii := ascii_of_N (Z.to_N (48 + d)).

(** The [w] low decimal digits of [n], most significant first. *)
Fixpoint fixed_digits (w : nat) (n : Z) : string :=
  match w with
  | O => EmptyString
  | S w' => String (digit_char ((n / 10 ^ Z.of_nat w') mod 10)) (fixed_digits w' n)
  end.

Definition year_string (y : Z) : string :=
  if (0 <=? y) && (y <=? 9999) then fixed_digits 4 y
  else (if y <? 0 then "-" else "+") +:+ fixed_digits 6 (Z.abs y).

Definition toISOString (t : Z) : string :=
  year_string (YearFromTime t) +:+ "-" +:+
  fixed_digits 2 (MonthFromTime t) +:+ "-" +:+
  fixed_digits 2 (DateFromTime t) +:+ "T" +:+
  fixed_digits 2 (HourFromTime t) +:+ ":" +:+
  fixed_digits 2 (MinFromTime t) +:+ ":" +:+
  fixed_digits 2 (SecFromTime t) +:+ "." +:+
  fixed_digits 3 (msFromTime t) +:+ "Z".

(** *** Recognising a timestamp

    A recogniser for the date-time format above, independent of the
    printer: it reads the fields back and checks that they denote a
    calendar date and a time of day. *)

(** The value of a decimal digit. *)
Definition digit_value (c : ascii) : option Z :=
  let n := Z.of_N (N_of_ascii c) in
  if (48 <=? n) && (n <=? 57) then Some (n - 48) else None.

(** Reads exactly [w] decimal digits, continuing the number [acc]. *)
Fixpoint take_digits (w : nat) (acc : Z) (s : string) : option (Z * string) :=
  match w, s with
  | O, _ => Some (acc, s)
  | S w', String c rest =>
      d ← digit_value c; take_digits w' (10 * acc + d) rest
  | S _, EmptyString => None
  end.

(** Reads the character [c]. *)
Definition expect (c : ascii) (s : string) : option string :=
  match s with
  | String c' rest => if Ascii.eqb c c' then Some rest else None
  | EmptyString => None
  end.

(** A year is four digits, or a sign and six digits; the expanded form
    of year 0 takes the sign [+]. *)
Definition parse_year (s : string) : option (Z * string) :=
  match s with
  | String "+" rest => take_digits 6 0 rest
  | String "-" rest =>
      '(y, rest') ← take_digits 6 0 rest;
      if y =? 0 then None else Some (- y, rest')
  | _ => take_digits 4 0 s
  end.

Record DateTime : Type := {
  dt_year : Z; dt_month : Z; dt_day : Z;
  dt_hour : Z; dt_minute : Z; dt_second : Z; dt_millisecond : Z
}.

Definition parse_date_time (s : string) : option DateTime :=
  '(y, s) ← parse_year s;
  s ← expect "-" s;
  '(mo, s) ← take_digits 2 0 s;
  s ← expect "-" s;
  '(d, s) ← take_digits 2 0 s;
  s ← expect "T" s;
  '(hh, s) ← take_digits 2 0 s;
  s ← expect ":" s;
  '(mi, s) ← take_digits 2 0 s;
  s ← expect ":" s;
  '(ss, s) ← take_digits 2 0 s;
  s ← expect "." s;
  '(ms, s) ← take_digits 3 0 s;
  s ← expect "Z" s;
  match s with
  | EmptyString =>
      Some {| dt_year := y; dt_month := mo; dt_day := d; dt_hour := hh;
              dt_minute := mi; dt_second := ss; dt_millisecond := ms |}
  | _ => None
  end.

Definition leap_year (y : Z) : bool :=
  (y mod 4 =? 0) && (negb (y mod 100 =? 0) || (y mod 400 =? 0)).

Definition days_in_month (y m : Z) : Z :=
  if m =? 2 then (if leap_year y then 29 else 28)
  else if (m =? 4) || (m =? 6) || (m =? 9) || (m =? 11) then 30
  else 31.

(** The fields denote a day of the calendar and a time of that day. *)
Definition valid_date_time (dt : DateTime) : bool :=
  (1 <=? dt_month dt) && (dt_month dt <=? 12) &&
  (1 <=? dt_day dt) && (dt_day dt <=? days_in_month (dt_year dt) (dt_month dt)) &&
  (dt_hour dt <=? 23) && (dt_minute dt <=? 59) && (dt_second dt <=? 59).

Definition is_iso8601 (s : string) : bool :=
  match parse_date_time s with
  | Some dt => valid_date_time dt
  | None => false
  end.

(** The time values a [Date] can hold: 100,000,000 days either side of
    the epoch. *)
Definition time_value (t : Z) : Prop :=
  -8640000000000000 <= t <= 8640000000000000.

(** The calendar fields computed for the day [doe] of an era denote a
    date: the test that is run on the 146097 days of an era. *)
Definition calendar_ok (doe : Z) : bool :=
  let yoe := (doe - doe / 1460 + doe / 36524 - doe / 146096) / 365 in
  let doy := doe - (365 * yoe + yoe / 4 - yoe / 100) in
  let mp := (5 * doy + 2) / 153 in
  let m := if mp <? 10 then mp + 3 else mp - 9 in
  let d := doy - (153 * mp + 2) / 5 + 1 in
  (0 <=? yoe) && (yoe <=? 399) && (1 <=? m) && (m <=? 12) && (1 <=? d) &&
  (d <=? days_in_month (yoe + (if m <=? 2 then 1 else 0)) m).

(** [check] holds of the [count] integers from [z] on. *)
Fixpoint holds_from (check : Z -> bool) (z : Z) (count : nat) : bool :=
  match count with
  | O => true
  | S count' => check z && holds_from check (z + 1) count'
  end.

(** ** Objects, errors, requests and responses *)

Abbreviation JsProps := (gmap string JsValue).

(** [o.k] on an object literal or a parsed JSON object: the value
    stored under [k], [undefined] when there is none. *)
Definition prop (o : JsProps) (k : string) : JsValue :=
  default JsUndefined (o !! k).

(** [v.k] for a value that is neither [null] nor [undefined], for the
    property names the script reads (none of them is a built-in
    property of a primitive or of an array). *)
Definition get (v : JsValue) (k : string) : JsValue :=
  match v with
  | JsObject o => prop o k
  | _ => JsUndefined
  end.

Definition nullish (v : JsValue) : bool :=
  match v with
  | JsUndefined | JsNull => true
  | _ => false
  end.

(** [v?.k] *)
Definition optional_get (v : JsValue) (k : string) : JsValue :=
  if nullish v then JsUndefined else get v k.

(** [a || b] *)
Definition or_else (a b : JsValue) : JsValue :=
  if truthy a then a else b.

(** The two classes of the script, both extending [Error], and every
    other thrown error. *)
Inductive JsError : Type :=
| RetryableError (msg : string)
| FatalError (msg : string)
| Thrown (e : ForeignError).

Definition message (e : JsError) : string :=
  match e with
  | RetryableError msg | FatalError msg => msg
  | Thrown e => error_message e
  end.

(** The [retryable] property the constructors set; a foreign error has
    none. *)
Definition retryable (e : JsError) : option bool :=
  match e with
  | RetryableError _ => Some true
  | FatalError _ => Some false
  | Thrown _ => None
  end.

(** [error instanceof RetryableError || error instanceof FatalError] *)
Definition classified (e : JsError) : bool :=
  match e with
  | RetryableError _ | FatalError _ => true
  | Thrown _ => false
  end.

(** What [fetch] is called with; [body] is the serialized request body,
    if any. *)
Record Request : Type := {
  url : string;
  method : string;
  headers : gmap string string;
  body : option string
}.

(** A received response: its status line, and what reading its body
    gives: the string [text()] resolves to, the value [json()] resolves
    to, or the error either rejects with (a stream that breaks off, a
    body that is not JSON). *)
Record Response : Type := {
  status : Z;
  statusText : string;
  text : ForeignError + string;
  json : ForeignError + JsValue
}.

(** [response.ok]: the status is in the range 200..299. *)
Definition ok (r : Response) : bool :=
  (200 <=? status r) && (status r <=? 299).

(** The execution context, of which the script reads [secrets] and
    (through [getBaseURL]) [environment]. *)
Record Context : Type := {
  secrets : JsValue;
  environment : JsValue
}.

(** ** Effects

    Everything the script does to the outside world is an event; a run
    is the list of events it emitted, oldest first. *)
Inductive Event : Type :=
| ConsoleLog (line : string)
| ConsoleError (line : string)
| Fetch (request : Request) (reply : ForeignError + Response)
| Timeout (ms : Z)
| Now (t : Z).

(** The outside world answers a request, and tells the time, as a
    function of everything that happened before. *)
Record Env : Type := {
  network : list Event -> Request -> ForeignError + Response;
  clock : list Event -> Z
}.

(** The network calls among the events, each with its reply. *)
Definition exchanges (evs : list Event) : list (Request * (ForeignError + Response)) :=
  flat_map (fun e => match e with Fetch q a => [(q, a)] | _ => [] end) evs.

Definition requests (evs : list Event) : list Request :=
  map fst (exchanges evs).

(** A computation reads the history so far and yields the events it
    adds and either a thrown error or a value. *)
Definition M (A : Type) : Type := list Event -> list Event * (JsError + A).

Definition ret {A} (a : A) : M A := fun _ => ([], inr a).

Definition throw {A} (e : JsError) : M A := fun _ => ([], inl e).

Definition bind {A B} (m : M A) (k : A -> M B) : M B :=
  fun h =>
    match m h with
    | (evs, inl e) => (evs, inl e)
    | (evs, inr a) =>
        let (evs', r) := k a (h ++ evs) in (evs ++ evs', r)
    end.

Definition try_catch {A} (m : M A) (handler : JsError -> M A) : M A :=
  fun h =>
    match m h with
    | (evs, inl e) =>
        let (evs', r) := handler e (h ++ evs) in (evs ++ evs', r)
    | (evs, inr a) => (evs, inr a)
    end.

Definition emit (e : Event) : M unit := fun _ => ([e], inr tt).

Declare Scope js_scope.
Delimit Scope js_scope with js.
Notation "x <- m ;; k" := (bind m (fun x => k))
  (at level 100, m at next level, right associativity) : js_scope.
Notation "m ;; k" := (bind m (fun _ => k))
  (at level 100, right associativity) : js_scope.
Notation "'when' c 'throws' e ;; k" := (if c then throw e else k)
  (at level 100, c at next level, e at next level, right associativity) : js_scope.

(** *** Runs

    The events a computation emits when it is run from history [h], and
    how it ends.  [wp m h Q]: the run of [m] from [h] satisfies [Q]. *)
Definition trace {A} (m : M A) (h : list Event) : list Event := fst (m h).
Definition outcome {A} (m : M A) (h : list Event) : JsError + A := snd (m h).

Definition wp {A} (m : M A) (h : list Event)
           (Q : list Event -> JsError + A -> Prop) : Prop :=
  Q (trace m h) (outcome m h).

(** ** Facts about the platform functions

    The definitions above, run on the values the script's tests and the
    language reference give. *)

Example truthy_blank : truthy (JsString "   ") = true.
Proof. reflexivity. Qed.

Example obj_lookup :
  match obj [("a", JsNumber 1); ("b", JsNull)] with
  | JsObject m => m !! "b"
  | _ => None
  end = Some JsNull.
Proof. vm_compute. reflexivity. Qed.

Example Number_toString_409 : Number_toString 409 = "409".
Proof. vm_compute. reflexivity. Qed.

Example Number_toString_neg : Number_toString (-12) = "-12".
Proof. vm_compute. reflexivity. Qed.

Example Number_toString_rounded : Number_toString (2 ^ 60) = "1152921504606847000".
Proof. vm_compute. reflexivity. Qed.

Example Number_toString_21_digits :
  Number_toString 999999999999999900000 = "999999999999999900000".
Proof. vm_compute. reflexivity. Qed.

Example Number_toString_exponent : Number_toString (10 ^ 21) = "1e+21".
Proof. vm_compute. reflexivity. Qed.

Example Number_toString_fraction : Number_toString (2 ^ 70) = "1.1805916207174113e+21".
Proof. vm_compute. reflexivity. Qed.

Example Number_toString_tie : Number_toString 9007199254740995 = "9007199254740996".
Proof. vm_compute. reflexivity. Qed.

Example Number_toString_largest :
  Number_toString (2 ^ 1024 - 2 ^ 970 - 1) = "1.7976931348623157e+308".
Proof. vm_compute. reflexivity. Qed.

Example Number_toString_infinity : Number_toString (2 ^ 1024 - 2 ^ 970) = "Infinity".
Proof. vm_compute. reflexivity. Qed.

Example ToString_array :
  ToString (JsArray [JsNumber 1; JsNull; JsString "a"]) = inr "1,,a".
Proof. vm_compute. reflexivity. Qed.

Example ToString_object : ToString (obj [("version", JsNumber 1)]) = inr "[object Object]".
Proof. vm_compute. reflexivity. Qed.

Example ToString_own_toString :
  ToString (obj [("toString", JsNumber 1)]) = inl cannot_convert.
Proof. vm_compute. reflexivity. Qed.

Example ToString_own_toString_nested :
  ToString (JsArray [JsString "a"; obj [("toString", JsNull)]]) = inl cannot_convert.
Proof. vm_compute. reflexivity. Qed.

Example trim_inner : trim "  s 1 " = "s 1".
Proof. reflexivity. Qed.

Example trim_blank : trim "   " = "".
Proof. reflexivity. Qed.

Example encodeURIComponent_id : encodeURIComponent "s_12/a b" = "s_12%2Fa%20b".
Proof. reflexivity. Qed.

Example encodeURIComponent_latin1 :
  encodeURIComponent (String (ascii_of_N 233) EmptyString) = "%C3%A9".
Proof. reflexivity. Qed.

Example toISOString_epoch : toISOString 0 = "1970-01-01T00:00:00.000Z".
Proof. reflexivity. Qed.

Example toISOString_2024 : toISOString 1705314600123 = "2024-01-15T10:30:00.123Z".
Proof. reflexivity. Qed.

Example toISOString_leap : toISOString 951782400000 = "2000-02-29T00:00:00.000Z".
Proof. reflexivity. Qed.

Example toISOString_before_epoch : toISOString (-1) = "1969-12-31T23:59:59.999Z".
Proof. reflexivity. Qed.

Example toISOString_max : toISOString 8640000000000000 = "+275760-09-13T00:00:00.000Z".
Proof. reflexivity. Qed.

Example toISOString_min : toISOString (-8640000000000000) = "-271821-04-20T00:00:00.000Z".
Proof. reflexivity. Qed.

Example is_iso8601_utc : is_iso8601 "2024-01-15T10:30:00.123Z" = true.
Proof. reflexivity. Qed.

Example is_iso8601_no_leap_day : is_iso8601 "2023-02-29T10:30:00.123Z" = false.
Proof. reflexivity. Qed.

Example is_iso8601_no_separator : is_iso8601 "2024-01-15 10:30:00.123Z" = false.
Proof. reflexivity. Qed.

Example is_iso8601_expanded_year : is_iso8601 "-271821-04-20T00:00:00.000Z" = true.
Proof. reflexivity. Qed.

Example is_iso8601_no_milliseconds : is_iso8601 "2024-01-15T10:30:00Z" = false.
Proof. reflexivity. Qed.

(** *** The printer produces timestamps *)

Lemma holds_from_spec check count : forall z k,
  holds_from check z count = true -> z <= k < z + Z.of_nat count -> check k = true.
Proof.
  induction count as [| count IH]; intros z k Hall Hk.
  - lia.
  - cbn [holds_from] in Hall. apply andb_true_iff in Hall as [Hz Hrest].
    destruct (Z.eq_dec k z) as [-> | Hne]; [exact Hz |].
    apply (IH (z + 1)); [exact Hrest | lia].
Qed.

(** By computation, one day of the era after the other. *)
Lemma calendar_ok_all : holds_from calendar_ok 0 (Z.to_nat 146097) = true.
Proof. vm_compute. reflexivity. Qed.

Lemma calendar_ok_doe doe : 0 <= doe < 146097 -> calendar_ok doe = true.
Proof.
  intros H. apply (holds_from_spec calendar_ok (Z.to_nat 146097) 0 doe calendar_ok_all). lia.
Qed.

Lemma digit_value_digit_char d : 0 <= d <= 9 -> digit_value (digit_char d) = Some d.
Proof.
  intros Hd.
  assert (Hcases : d = 0 \/ d = 1 \/ d = 2 \/ d = 3 \/ d = 4 \/
                   d = 5 \/ d = 6 \/ d = 7 \/ d = 8 \/ d = 9) by lia.
  repeat (destruct Hcases as [-> | Hcases]; [reflexivity |]).
  subst d. reflexivity.
Qed.

Lemma append_String c s t : String c s +:+ t = String c (s +:+ t).
Proof. reflexivity. Qed.

Lemma append_empty t : "" +:+ t = t.
Proof. reflexivity. Qed.

Lemma mod_10_digit z : 0 <= z mod 10 <= 9.
Proof. pose proof (Z.mod_pos_bound z 10). lia. Qed.

Lemma take_digits_fixed w : forall n acc rest,
  0 <= n ->
  take_digits w acc (fixed_digits w n +:+ rest) =
    Some (acc * 10 ^ Z.of_nat w + n mod 10 ^ Z.of_nat w, rest).
Proof.
  induction w as [| w IH]; intros n acc rest Hn.
  - cbn [take_digits fixed_digits]. rewrite append_empty. change (10 ^ Z.of_nat 0) with 1.
    rewrite Z.mod_1_r. do 2 f_equal. lia.
  - cbn [take_digits fixed_digits]. rewrite append_String.
    rewrite digit_value_digit_char by apply mod_10_digit.
    cbn [mbind option_bind]. rewrite IH by exact Hn.
    do 2 f_equal.
    rewrite Nat2Z.inj_succ, Z.pow_succ_r by lia.
    rewrite (Z.mul_comm 10 (10 ^ Z.of_nat w)).
    rewrite Z.rem_mul_r by lia. lia.
Qed.

Lemma take_digits_small w n rest :
  0 <= n < 10 ^ Z.of_nat w ->
  take_digits w 0 (fixed_digits w n +:+ rest) = Some (n, rest).
Proof.
  intros Hn. rewrite take_digits_fixed by lia.
  rewrite Z.mod_small by lia. reflexivity.
Qed.

Lemma parse_year_digit d s :
  0 <= d <= 9 -> parse_year (String (digit_char d) s) = take_digits 4 0 (String (digit_char d) s).
Proof.
  intros Hd.
  assert (Hcases : d = 0 \/ d = 1 \/ d = 2 \/ d = 3 \/ d = 4 \/
                   d = 5 \/ d = 6 \/ d = 7 \/ d = 8 \/ d = 9) by lia.
  repeat (destruct Hcases as [-> | Hcases]; [reflexivity |]).
  subst d. reflexivity.
Qed.

Lemma parse_year_string y rest :
  -999999 <= y <= 999999 ->
  parse_year (year_string y +:+ rest) = Some (y, rest).
Proof.
  intros Hy. unfold year_string.
  destruct ((0 <=? y) && (y <=? 9999)) eqn:Hsmall.
  - apply andb_true_iff in Hsmall as [H0 H1].
    apply Z.leb_le in H0, H1.
    change (fixed_digits 4 y) with
      (String (digit_char ((y / 10 ^ Z.of_nat 3) mod 10)) (fixed_digits 3 y)).
    rewrite append_String, parse_year_digit by apply mod_10_digit.
    rewrite <- append_String.
    change (String (digit_char ((y / 10 ^ Z.of_nat 3) mod 10)) (fixed_digits 3 y))
      with (fixed_digits 4 y).
    apply take_digits_small. change (10 ^ Z.of_nat 4) with 10000. lia.
  - apply andb_false_iff in Hsmall.
    destruct (y <? 0) eqn:Hneg.
    + apply Z.ltb_lt in Hneg.
      rewrite !append_String, append_empty. cbn [parse_year].
      rewrite take_digits_small by (change (10 ^ Z.of_nat 6) with 1000000; lia).
      cbn [mbind option_bind].
      destruct (Z.eqb_spec (Z.abs y) 0); [lia |].
      do 2 f_equal. lia.
    + apply Z.ltb_ge in Hneg.
      rewrite !append_String, append_empty. cbn [parse_year].
      rewrite take_digits_small by (change (10 ^ Z.of_nat 6) with 1000000; lia).
      do 2 f_equal.
      destruct Hsmall as [H | H]; [apply Z.leb_gt in H | apply Z.leb_gt in H]; lia.
Qed.

Lemma leap_year_shift y k : leap_year (y + k * 400) = leap_year y.
Proof.
  unfold leap_year.
  replace ((y + k * 400) mod 4) with (y mod 4)
    by (replace (y + k * 400) with (y + (k * 100) * 4) by lia; now rewrite Z_mod_plus_full).
  replace ((y + k * 400) mod 100) with (y mod 100)
    by (replace (y + k * 400) with (y + (k * 4) * 100) by lia; now rewrite Z_mod_plus_full).
  now rewrite Z_mod_plus_full.
Qed.

Lemma days_in_month_shift y k m : days_in_month (y + k * 400) m = days_in_month y m.
Proof. unfold days_in_month. now rewrite leap_year_shift. Qed.

Lemma expect_String c s : expect c (String c s) = Some s.
Proof. cbn [expect]. now rewrite Ascii.eqb_refl. Qed.

Lemma time_fields_bound t :
  0 <= HourFromTime t <= 23 /\ 0 <= MinFromTime t <= 59 /\
  0 <= SecFromTime t <= 59 /\ 0 <= msFromTime t <= 999.
Proof.
  unfold HourFromTime, MinFromTime, SecFromTime, msFromTime, TimeWithinDay, msPerDay.
  pose proof (Z.mod_pos_bound t 86400000).
  repeat split;
    try (apply Z.div_pos; lia);
    try (apply Z.mod_pos_bound; lia);
    try (pose proof (Z.mod_pos_bound (t mod 86400000 / 60000) 60);
         pose proof (Z.mod_pos_bound (t mod 86400000 / 1000) 60);
         pose proof (Z.mod_pos_bound (t mod 86400000) 1000); lia).
  assert (t mod 86400000 / 3600000 < 24) by (apply Z.div_lt_upper_bound; lia). lia.
Qed.

Lemma days_in_month_bound y m : 28 <= days_in_month y m <= 31.
Proof.
  unfold days_in_month.
  destruct (m =? 2); [destruct (leap_year y); lia |].
  destruct ((m =? 4) || (m =? 6) || (m =? 9) || (m =? 11)); lia.
Qed.

(** The calendar fields of every time value denote a date: the year
    of the era is below 400, the month is one of the twelve and the day
    exists in that month of that year. *)
Lemma calendar_fields_bound t :
  0 <= year_of_era t <= 399 /\
  1 <= MonthFromTime t <= 12 /\
  1 <= DateFromTime t <= days_in_month (YearFromTime t) (MonthFromTime t).
Proof.
  assert (Hdoe : 0 <= day_of_era t < 146097)
    by (unfold day_of_era; apply Z.mod_pos_bound; lia).
  pose proof (calendar_ok_doe _ Hdoe) as Hcal.
  unfold calendar_ok in Hcal.
  fold (year_of_era t) in Hcal. fold (day_of_year t) in Hcal.
  fold (month_from_march t) in Hcal. fold (MonthFromTime t) in Hcal.
  fold (DateFromTime t) in Hcal.
  repeat (apply andb_true_iff in Hcal; destruct Hcal as [Hcal ?]).
  repeat match goal with H : (_ <=? _) = true |- _ => apply Z.leb_le in H end.
  replace (days_in_month (YearFromTime t) (MonthFromTime t))
    with (days_in_month (year_of_era t + (if MonthFromTime t <=? 2 then 1 else 0))
                        (MonthFromTime t)).
  - lia.
  - unfold YearFromTime.
    rewrite <- (days_in_month_shift _ (era t)). f_equal. lia.
Qed.

Lemma year_bound t : time_value t -> -999999 <= YearFromTime t <= 999999.
Proof.
  intros Ht. pose proof (calendar_fields_bound t) as (Hyoe & _).
  unfold time_value, YearFromTime, era, Day, msPerDay in *.
  assert (-100000000 <= t / 86400000 <= 100000000).
  { split; [apply Z.div_le_lower_bound | apply Z.div_le_upper_bound]; lia. }
  assert (-1000 <= (t / 86400000 + 719468) / 146097 <= 1000).
  { split; [apply Z.div_le_lower_bound | apply Z.div_le_upper_bound]; lia. }
  destruct (MonthFromTime t <=? 2); lia.
Qed.

(** Reading a printed time value back gives its calendar fields. *)
Lemma parse_date_time_toISOString t :
  time_value t ->
  parse_date_time (toISOString t) =
    Some {| dt_year := YearFromTime t; dt_month := MonthFromTime t;
            dt_day := DateFromTime t; dt_hour := HourFromTime t;
            dt_minute := MinFromTime t; dt_second := SecFromTime t;
            dt_millisecond := msFromTime t |}.
Proof.
  intros Ht.
  pose proof (calendar_fields_bound t) as (_ & Hmonth & Hday).
  pose proof (days_in_month_bound (YearFromTime t) (MonthFromTime t)) as Hdim.
  pose proof (time_fields_bound t) as (Hh & Hm & Hs & Hms).
  unfold parse_date_time, toISOString.
  rewrite parse_year_string by exact (year_bound t Ht). cbn [mbind option_bind].
  rewrite !append_String, !append_empty.
  repeat (rewrite expect_String; cbn [mbind option_bind];
          rewrite ?take_digits_small
            by (first [change (10 ^ Z.of_nat 2) with 100 | change (10 ^ Z.of_nat 3) with 1000];
                lia);
          cbn [mbind option_bind]).
  reflexivity.
Qed.

(** Every time value a [Date] can hold is printed as a valid timestamp. *)
Lemma toISOString_valid t : time_value t -> is_iso8601 (toISOString t) = true.
Proof.
  intros Ht. unfold is_iso8601. rewrite parse_date_time_toISOString by exact Ht.
  pose proof (calendar_fields_bound t) as (_ & Hmonth & Hday).
  pose proof (time_fields_bound t) as (Hh & Hm & Hs & Hms).
  unfold valid_date_time; cbn [dt_year dt_month dt_day dt_hour dt_minute dt_second].
  repeat (apply andb_true_iff; split); apply Z.leb_le; lia.
Qed.

(** *** White space and escaping *)

(** Every character of [s] satisfies [p]. *)
Fixpoint all_chars (p : ascii -> bool) (s : string) : bool :=
  match s with
  | EmptyString => true
  | String c rest => p c && all_chars p rest
  end.

(** The characters an escaped component is made of: the ones
    [encodeURIComponent] leaves alone, and the percent sign. *)
Definition escaped_char (c : ascii) : bool :=
  uri_unreserved c || Ascii.eqb c "%".

(** What [encodeURIComponent] writes for one code unit. *)
Definition escape_unit (c : ascii) : string :=
  let n := Z.of_N (N_of_ascii c) in
  if uri_unreserved c then String c EmptyString
  else if n <? 128 then percent_byte n
  else percent_byte (192 + n / 64) +:+ percent_byte (128 + n mod 64).

(** Reading back what [escape_unit] wrote: the value of a hexadecimal
    digit, of an escaped byte, and the code unit at the head of an
    escaped component. *)
Definition hex_value (c : ascii) : option Z :=
  let n := Z.of_N (N_of_ascii c) in
  if (48 <=? n) && (n <=? 57) then Some (n - 48)
  else if (65 <=? n) && (n <=? 70) then Some (n - 55)
  else None.

Definition percent_value (s : string) : option (Z * string) :=
  match s with
  | String c (String a (String b rest)) =>
      if Ascii.eqb c "%" then
        hi ← hex_value a;
        lo ← hex_value b;
        Some (16 * hi + lo, rest)
      else None
  | _ => None
  end.

Definition unescape_unit (s : string) : option (ascii * string) :=
  match s with
  | EmptyString => None
  | String c rest =>
      if Ascii.eqb c "%" then
        '(b1, rest1) ← percent_value s;
        if b1 <? 128 then Some (ascii_of_N (Z.to_N b1), rest1)
        else
          '(b2, rest2) ← percent_value rest1;
          Some (ascii_of_N (Z.to_N ((b1 - 192) * 64 + (b2 - 128))), rest2)
      else Some (c, rest)
  end.

Lemma all_chars_append p s t : all_chars p (s +:+ t) = all_chars p s && all_chars p t.
Proof.
  induction s as [| c s IH]; [reflexivity |].
  rewrite append_String. cbn [all_chars]. rewrite IH, andb_assoc. reflexivity.
Qed.

Lemma length_append s t : String.length (s +:+ t) = (String.length s + String.length t)%nat.
Proof.
  induction s as [| c s IH]; [reflexivity |].
  rewrite append_String. cbn [String.length]. rewrite IH. reflexivity.
Qed.

Lemma append_assoc s t u : (s +:+ t) +:+ u = s +:+ (t +:+ u).
Proof.
  induction s as [| c s IH]; [reflexivity |].
  rewrite !append_String, IH. reflexivity.
Qed.

Lemma append_inv_head p s t : p +:+ s = p +:+ t -> s = t.
Proof.
  induction p as [| c p IH]; [exact (fun H => H) |].
  rewrite !append_String. intros [= H]. exact (IH H).
Qed.

Lemma append_inv_tail p s : forall t, s +:+ p = t +:+ p -> s = t.
Proof.
  induction s as [| c s IH]; intros [| c' t] H.
  - reflexivity.
  - apply (f_equal String.length) in H. rewrite !length_append in H.
    cbn [String.length] in H. lia.
  - apply (f_equal String.length) in H. rewrite !length_append in H.
    cbn [String.length] in H. lia.
  - rewrite !append_String in H. injection H as -> H. f_equal. exact (IH _ H).
Qed.

(** A string with a character that is not white space is not trimmed
    away, and a string of white space is. *)
Lemma trimEnd_kept c rest : is_white_space c = false -> trimEnd (String c rest) <> "".
Proof.
  intros Hc. cbn [trimEnd]. destruct (trimEnd rest); [rewrite Hc |]; discriminate.
Qed.

Lemma trim_blank_iff s : trim s = "" <-> all_chars is_white_space s = true.
Proof.
  unfold trim. induction s as [| c s IH]; [split; reflexivity |].
  cbn [trimStart all_chars]. destruct (is_white_space c) eqn:Hc; [exact IH |].
  split; [| discriminate]. intros H. exfalso. exact (trimEnd_kept c s Hc H).
Qed.

Lemma encodeURIComponent_String c rest :
  encodeURIComponent (String c rest) = escape_unit c +:+ encodeURIComponent rest.
Proof. reflexivity. Qed.

Lemma escape_unit_escaped c : all_chars escaped_char (escape_unit c) = true.
Proof. destruct c as [[] [] [] [] [] [] [] []]; vm_compute; reflexivity. Qed.

Lemma unescape_escape_unit c t : unescape_unit (escape_unit c +:+ t) = Some (c, t).
Proof. destruct c as [[] [] [] [] [] [] [] []]; reflexivity. Qed.

(** An escaped component holds no character that has a meaning in a
    URL: no slash, question mark, hash, colon or space. *)
Lemma encodeURIComponent_escaped s : all_chars escaped_char (encodeURIComponent s) = true.
Proof.
  induction s as [| c s IH]; [reflexivity |].
  rewrite encodeURIComponent_String, all_chars_append, escape_unit_escaped, IH. reflexivity.
Qed.

(** Escaping loses nothing: different strings have different escaped
    forms. *)
Lemma encodeURIComponent_inj s : forall s', encodeURIComponent s = encodeURIComponent s' -> s = s'.
Proof.
  induction s as [| c s IH]; intros [| c' s'] H.
  - reflexivity.
  - apply (f_equal unescape_unit) in H.
    rewrite encodeURIComponent_String, unescape_escape_unit in H. discriminate.
  - apply (f_equal unescape_unit) in H.
    rewrite encodeURIComponent_String, unescape_escape_unit in H. discriminate.
  - apply (f_equal unescape_unit) in H.
    rewrite !encodeURIComponent_String, !unescape_escape_unit in H.
    injection H as -> H. f_equal. exact (IH _ H).
Qed.

(** ** The script *)

(** The records [invoke] and [halt] return. *)
Module CancelResult.
Record t : Type := {
  sessionId : JsValue;
  authMethodId : JsValue;
  sessionCancelled : bool;
  cancelledAt : string
}.
End CancelResult.

Module HaltResult.
Record t : Type := {
  sessionId : JsValue;
  authMethodId : JsValue;
  reason : JsValue;
  haltedAt : string;
  cleanupCompleted : bool
}.
End HaltResult.

(** [s.endsWith('/') ? s.slice(0, -1) : s] *)
Fixpoint removeTrailingSlash (s : string) : string :=
  match s with
  | EmptyString => EmptyString
  | String c EmptyString => if Ascii.eqb c "/" then EmptyString else s
  | String c rest => String c (removeTrailingSlash rest)
  end.

(** [typeof v !== 'string' || v.trim() === ''], the method call being
    reached for strings only. *)
Definition not_string_or_blank (v : JsValue) : bool :=
  match v with
  | JsString s => String.eqb (trim s) ""
  | _ => true
  end.

(** Modelled from the spec: [getBaseURL] of the utilities package,
    which the script imports and which is not part of it.  The base URL
    is resolved from an explicit parameter ([params.address]) or from an
    environment-style setting ([context.environment.ADDRESS]); its
    absence is an error, with the message the script's test expects;
    the result has no trailing slash. *)
Definition utils_getBaseURL (params : JsProps) (context : Context) : ForeignError + JsValue :=
  let address := or_else (prop params "address") (optional_get (environment context) "ADDRESS") in
  if negb (truthy address) then
    inl {| error_name := "Error";
           error_message := "No URL specified. Provide address parameter or ADDRESS environment variable" |}
  else
    match address with
    | JsString s => inr (JsString (removeTrailingSlash s))
    | _ => inl (TypeError "address.endsWith is not a function")
    end.

Section Script.

(** What the script takes from outside: the client identification and
    the base-URL resolution imported from the utilities package (a
    function of the parameters and the context that returns a value or
    throws an error of its own), the platform's [JSON.stringify], and
    the world it runs in. *)
Variable SGNL_USER_AGENT : string.
Variable JSON_stringify : JsValue -> string.
Variable getBaseURL : JsProps -> Context -> ForeignError + JsValue.
Variable env : Env.

Local Open Scope js_scope.

(** [console.log], [console.error], and the awaited
    [setTimeout(resolve, ms)]. *)
Definition console_log (line : string) : M unit := emit (ConsoleLog line).
Definition console_error (line : string) : M unit := emit (ConsoleError line).
Definition setTimeout (ms : Z) : M unit := emit (Timeout ms).

(** [await fetch(url, options)]: the world's reply is recorded, a
    rejection is thrown. *)
Definition fetch (q : Request) : M Response :=
  fun h =>
    let reply := network env h q in
    ([Fetch q reply],
     match reply with
     | inl e => inl (Thrown e)
     | inr r => inr r
     end).

(** [new Date()] *)
Definition Date_now : M Z :=
  fun h => let t := clock env h in ([Now t], inr t).

(** The result of foreign code: its value, or the error it threw. *)
Definition call {A} (result : ForeignError + A) : M A :=
  match result with
  | inl e => throw (Thrown e)
  | inr a => ret a
  end.

(** [await response.json()] *)
Definition response_json (r : Response) : M JsValue := call (json r).

(** [await response.text()] *)
Definition response_text (r : Response) : M string := call (text r).

(** [`${v}`]: the conversion a template literal applies to an
    interpolated value, which throws where [ToString] does. *)
Definition template (v : JsValue) : M string := call (ToString v).

(** [data.k], which throws when [data] is [null] or [undefined]. *)
Definition member (data : JsValue) (k : string) : M JsValue :=
  if nullish data
  then throw (Thrown (TypeError ("Cannot read properties of " +:+
                                 match data with JsNull => "null" | _ => "undefined" end +:+
                                 " (reading '" +:+ k +:+ "')")))
  else ret (get data k).

Definition validateInputs (params : JsProps) : M unit :=
  when negb (truthy (prop params "sessionId")) || not_string_or_blank (prop params "sessionId")
  throws FatalError "Invalid or missing sessionId parameter" ;;
  when negb (truthy (prop params "authMethodId")) || not_string_or_blank (prop params "authMethodId")
  throws FatalError "Invalid or missing authMethodId parameter" ;;
  ret tt.

(** The request of [authenticate], from the strings its template
    literal and [encodeURIComponent] made of [baseUrl] and
    [authMethodId]. *)
Definition authenticate_request (authMethodId : string) (username password : JsValue)
    (baseUrl : string) : Request :=
  {| url := baseUrl +:+ "/v1/auth-methods/" +:+ encodeURIComponent authMethodId +:+ ":authenticate";
     method := "POST";
     headers := list_to_map [("Content-Type", "application/json"); ("User-Agent", SGNL_USER_AGENT)];
     body := Some (JSON_stringify
                     (obj [("attributes", obj [("login_name", username); ("password", password)])])) |}.

Definition authenticate (authMethodId username password baseUrl : JsValue) : M JsValue :=
  base <- template baseUrl ;;
  id <- template authMethodId ;;
  response <- fetch (authenticate_request id username password base) ;;
  if negb (ok response) then
    responseText <- response_text response ;;
    when status response =? 429
    throws RetryableError "Boundary API rate limit exceeded" ;;
    when (status response =? 401) || (status response =? 403)
    throws FatalError "Invalid username or password" ;;
    when status response >=? 500
    throws RetryableError ("Boundary API server error: " +:+ Number_toString (status response)) ;;
    throw (FatalError ("Failed to authenticate: " +:+ Number_toString (status response) +:+ " " +:+
                       statusText response +:+ " - " +:+ responseText))
  else
    data <- response_json response ;;
    attributes <- member data "attributes" ;;
    when negb (truthy (optional_get attributes "token"))
    throws FatalError "No token returned from authentication" ;;
    ret (get attributes "token").

(** The request of [getSession], from the strings made of [baseUrl],
    [sessionId] and [token]. *)
Definition getSession_request (sessionId token baseUrl : string) : Request :=
  {| url := baseUrl +:+ "/v1/sessions/" +:+ encodeURIComponent sessionId;
     method := "GET";
     headers := list_to_map [("Authorization", "Bearer " +:+ token);
                             ("Content-Type", "application/json");
                             ("User-Agent", SGNL_USER_AGENT)];
     body := None |}.

Definition getSession (sessionId token baseUrl : JsValue) : M JsValue :=
  base <- template baseUrl ;;
  id <- template sessionId ;;
  bearer <- template token ;;
  response <- fetch (getSession_request id bearer base) ;;
  if negb (ok response) then
    responseText <- response_text response ;;
    when status response =? 429
    throws RetryableError "Boundary API rate limit exceeded" ;;
    when status response =? 401
    throws FatalError "Invalid or expired authentication token" ;;
    (if status response =? 404 then
       id' <- template sessionId ;;
       throw (FatalError ("Session not found: " +:+ id'))
     else
       when status response >=? 500
       throws RetryableError ("Boundary API server error: " +:+ Number_toString (status response)) ;;
       throw (FatalError ("Failed to get session: " +:+ Number_toString (status response) +:+ " " +:+
                          statusText response +:+ " - " +:+ responseText)))
  else
    data <- response_json response ;;
    version <- member data "version" ;;
    when negb (truthy version)
    throws FatalError "No version returned from session" ;;
    ret version.

(** The request of [cancelSession]: the address and the header from
    the strings made of [baseUrl], [sessionId] and [token], the body
    from the values [sessionId] and [version]. *)
Definition cancelSession_request (id : string) (sessionId version : JsValue)
    (token baseUrl : string) : Request :=
  {| url := baseUrl +:+ "/v1/sessions/" +:+ encodeURIComponent id +:+ ":cancel";
     method := "POST";
     headers := list_to_map [("Authorization", "Bearer " +:+ token);
                             ("Content-Type", "application/json");
                             ("User-Agent", SGNL_USER_AGENT)];
     body := Some (JSON_stringify (obj [("id", sessionId); ("version", version)])) |}.

Definition cancelSession (sessionId version token baseUrl : JsValue) : M bool :=
  base <- template baseUrl ;;
  id <- template sessionId ;;
  bearer <- template token ;;
  response <- fetch (cancelSession_request id sessionId version bearer base) ;;
  if negb (ok response) then
    responseText <- response_text response ;;
    when status response =? 429
    throws RetryableError "Boundary API rate limit exceeded" ;;
    when status response =? 401
    throws FatalError "Invalid or expired authentication token" ;;
    (if status response =? 404 then
       id' <- template sessionId ;;
       throw (FatalError ("Session not found: " +:+ id'))
     else
       when status response =? 409
       throws FatalError ("Session conflict (may already be cancelled): " +:+ responseText) ;;
       when status response >=? 500
       throws RetryableError ("Boundary API server error: " +:+ Number_toString (status response)) ;;
       throw (FatalError ("Failed to cancel session: " +:+ Number_toString (status response) +:+ " " +:+
                          statusText response +:+ " - " +:+ responseText)))
  else ret true.

(** The body of the [try] block of [invoke]. *)
Definition invoke_try (params : JsProps) (context : Context) : M CancelResult.t :=
  validateInputs params ;;
  let sessionId := prop params "sessionId" in
  let authMethodId := prop params "authMethodId" in
  id <- template sessionId ;;
  console_log ("Processing session ID: " +:+ id) ;;
  when negb (truthy (optional_get (secrets context) "BASIC_USERNAME")) ||
       negb (truthy (optional_get (secrets context) "BASIC_PASSWORD"))
  throws FatalError "Missing required secrets: BASIC_USERNAME and BASIC_PASSWORD" ;;
  baseUrl <- call (getBaseURL params context) ;;
  method_id <- template authMethodId ;;
  console_log ("Authenticating with auth method: " +:+ method_id) ;;
  token <- authenticate authMethodId
             (get (secrets context) "BASIC_USERNAME")
             (get (secrets context) "BASIC_PASSWORD")
             baseUrl ;;
  setTimeout 100 ;;
  id <- template sessionId ;;
  console_log ("Getting session details for: " +:+ id) ;;
  version <- getSession sessionId token baseUrl ;;
  setTimeout 100 ;;
  id <- template sessionId ;;
  printed_version <- template version ;;
  console_log ("Cancelling session: " +:+ id +:+ " with version: " +:+ printed_version) ;;
  cancelSession sessionId version token baseUrl ;;
  now <- Date_now ;;
  let result :=
    {| CancelResult.sessionId := sessionId;
       CancelResult.authMethodId := authMethodId;
       CancelResult.sessionCancelled := true;
       CancelResult.cancelledAt := toISOString now |} in
  id <- template sessionId ;;
  console_log ("Successfully cancelled session: " +:+ id) ;;
  ret result.

(** The [catch] block of [invoke]. *)
Definition invoke_catch (error : JsError) : M CancelResult.t :=
  console_error ("Error cancelling Boundary session: " +:+ message error) ;;
  if classified error then throw error
  else throw (FatalError ("Unexpected error: " +:+ message error)).

Definition invoke (params : JsProps) (context : Context) : M CancelResult.t :=
  console_log "Starting HashiCorp Boundary Cancel Sessions action" ;;
  try_catch (invoke_try params context) invoke_catch.

(** [halt], for any value passed as [params]: the destructuring of its
    first line throws when that value is [undefined] or [null]. *)
Definition halt (params : JsValue) (_context : Context) : M HaltResult.t :=
  when nullish params
  throws Thrown (TypeError ("Cannot destructure property 'reason' of 'params' as it is " +:+
                            match params with JsNull => "null" | _ => "undefined" end +:+ ".")) ;;
  let reason := get params "reason" in
  let sessionId := get params "sessionId" in
  let authMethodId := get params "authMethodId" in
  printed_reason <- template reason ;;
  console_log ("Job is being halted (" +:+ printed_reason +:+ ")") ;;
  now <- Date_now ;;
  ret {| HaltResult.sessionId := or_else sessionId (JsString "unknown");
         HaltResult.authMethodId := or_else authMethodId (JsString "unknown");
         HaltResult.reason := or_else reason (JsString "unknown");
         HaltResult.haltedAt := toISOString now;
         HaltResult.cleanupCompleted := true |}.

(** *** The vocabulary of the claims *)

(** The identifier [k] is absent, not a string, or blank after
    trimming white space. *)
Definition invalid_identifier (params : JsProps) (k : string) : Prop :=
  match params !! k with
  | None => True
  | Some (JsString s) => trim s = ""
  | Some _ => True
  end.

(** The test [validateInputs] applies to each identifier. *)
Definition rejected (params : JsProps) (k : string) : bool :=
  negb (truthy (prop params k)) || not_string_or_blank (prop params k).

(** Neither an explicit parameter nor an environment setting gives a
    base URL. *)
Definition url_absent (params : JsProps) (ctx : Context) : Prop :=
  params !! "address" = None /\ optional_get (environment ctx) "ADDRESS" = JsUndefined.

(** A response that signals a transient condition: rate limiting or a
    server-side error. *)
Definition transient (r : Response) : Prop := status r = 429 \/ 500 <= status r.

(** The field of the halt record for the property [k]: the input's
    value when it is truthy, ["unknown"] otherwise. *)
Definition echo_or_unknown (params : JsValue) (k : string) (v : JsValue) : Prop :=
  (truthy (get params k) = true /\ v = get params k) \/
  (truthy (get params k) = false /\ v = JsString "unknown").

(** *** Symbolic execution *)

Lemma wp_ret {A} (a : A) h Q : Q [] (inr a) -> wp (ret a) h Q.
Proof. exact id. Qed.

Lemma wp_throw {A} (e : JsError) h (Q : list Event -> JsError + A -> Prop) :
  Q [] (inl e) -> wp (throw e) h Q.
Proof. exact id. Qed.

Lemma wp_emit (e : Event) h Q : Q [e] (inr tt) -> wp (emit e) h Q.
Proof. exact id. Qed.

Lemma wp_bind {A B} (m : M A) (k : A -> M B) h Q :
  wp m h (fun evs r =>
            match r with
            | inl e => Q evs (inl e)
            | inr a => wp (k a) (h ++ evs) (fun evs' r' => Q (evs ++ evs') r')
            end) ->
  wp (bind m k) h Q.
Proof.
  unfold wp, trace, outcome, bind.
  destruct (m h) as [evs [e | a]]; cbn; [exact id |].
  destruct (k a (h ++ evs)); exact id.
Qed.

Lemma wp_try_catch {A} (m : M A) (handler : JsError -> M A) h Q :
  wp m h (fun evs r =>
            match r with
            | inl e => wp (handler e) (h ++ evs) (fun evs' r' => Q (evs ++ evs') r')
            | inr a => Q evs (inr a)
            end) ->
  wp (try_catch m handler) h Q.
Proof.
  unfold wp, trace, outcome, try_catch.
  destruct (m h) as [evs [e | a]]; cbn; [| exact id].
  destruct (handler e (h ++ evs)); exact id.
Qed.

Lemma wp_fetch (q : Request) h Q :
  (forall e, network env h q = inl e -> Q [Fetch q (inl e)] (inl (Thrown e))) ->
  (forall r, network env h q = inr r -> Q [Fetch q (inr r)] (inr r)) ->
  wp (fetch q) h Q.
Proof.
  unfold wp, trace, outcome, fetch; cbn.
  destruct (network env h q); auto.
Qed.

Lemma wp_Date_now h Q : Q [Now (clock env h)] (inr (clock env h)) -> wp Date_now h Q.
Proof. exact id. Qed.

(** An identifier that passed [validateInputs] is a string, and is its
    own conversion. *)
Lemma accepted_ToString v :
  negb (truthy v) || not_string_or_blank v = false ->
  exists s, v = JsString s /\ ToString v = inr s.
Proof.
  destruct v as [| | b | n | s | items | o]; cbn; rewrite ?orb_true_r; try discriminate.
  intros _. exists s. split; reflexivity.
Qed.

(** A test or a result the run has met before has the value it had
    then; the conversion of an accepted identifier succeeds; anything
    else is split. *)
Ltac wp_case x :=
  first [ match goal with H : x = _ |- _ => rewrite H end
        | lazymatch x with
          | ToString ?v =>
              match goal with
              | H : negb (truthy v) || not_string_or_blank v = false |- _ =>
                  let s := fresh "s" in
                  let Hs := fresh "Hs" in
                  let Hc := fresh "Hc" in
                  destruct (accepted_ToString v H) as (s & Hs & Hc); rewrite Hc
              end
          end
        | destruct x eqn:? ].

(** One step of symbolic execution: the rule of the construct at the
    head of the computation. *)
Ltac wp_step :=
  cbv beta iota zeta;
  lazymatch goal with
  | |- wp (bind _ _) _ _ => apply wp_bind
  | |- wp (try_catch _ _) _ _ => apply wp_try_catch
  | |- wp (ret _) _ _ => apply wp_ret
  | |- wp (throw _) _ _ => apply wp_throw
  | |- wp (emit _) _ _ => apply wp_emit
  | |- wp (fetch _) _ _ => apply wp_fetch; intros ? ?
  | |- wp Date_now _ _ => apply wp_Date_now
  | |- wp (if classified ?e then _ else _) _ _ =>
      first [ progress cbn [classified] | destruct e ]
  | |- wp (if ?c then _ else _) _ _ => wp_case c
  | |- wp (match ?x with _ => _ end) _ _ => wp_case x
  | |- wp (console_log _) _ _ => unfold console_log
  | |- wp (console_error _) _ _ => unfold console_error
  | |- wp (setTimeout _) _ _ => unfold setTimeout
  | |- wp (response_json _) _ _ => unfold response_json
  | |- wp (response_text _) _ _ => unfold response_text
  | |- wp (template _) _ _ => unfold template
  | |- wp (call _) _ _ => unfold call
  | |- wp (member _ _) _ _ => unfold member
  | |- wp (validateInputs _) _ _ => unfold validateInputs
  | |- wp (authenticate _ _ _ _) _ _ => unfold authenticate
  | |- wp (getSession _ _ _) _ _ => unfold getSession
  | |- wp (cancelSession _ _ _ _) _ _ => unfold cancelSession
  | |- wp (invoke_try _ _) _ _ => unfold invoke_try
  | |- wp (invoke_catch _) _ _ => unfold invoke_catch
  | |- wp (invoke _ _) _ _ => unfold invoke
  | |- wp (halt _ _) _ _ => unfold halt
  end.

Ltac wp_run := repeat wp_step.

(** Brings a goal about [trace m h] and [outcome m h] into [wp] form. *)
Ltac wp_start m h :=
  pattern (trace m h), (outcome m h);
  lazymatch goal with |- ?Q _ _ => change (wp m h Q) end.

(** Boolean tests of the script as arithmetic facts. *)
Ltac bool_facts :=
  unfold ok in *;
  repeat match goal with
    | H : negb _ = true |- _ => apply negb_true_iff in H
    | H : negb _ = false |- _ => apply negb_false_iff in H
    | H : _ && _ = true |- _ => apply andb_true_iff in H; destruct H
    | H : _ || _ = false |- _ => apply orb_false_iff in H; destruct H
    | H : _ && _ = false |- _ => apply andb_false_iff in H; destruct H
    | H : _ || _ = true |- _ => apply orb_true_iff in H; destruct H
    | H : (_ =? _) = true |- _ => apply Z.eqb_eq in H
    | H : (_ =? _) = false |- _ => apply Z.eqb_neq in H
    | H : (_ <=? _) = true |- _ => apply Z.leb_le in H
    | H : (_ <=? _) = false |- _ => apply Z.leb_gt in H
    | H : (_ >=? _) = true |- _ => rewrite Z.geb_leb in H; apply Z.leb_le in H
    | H : (_ >=? _) = false |- _ => rewrite Z.geb_leb in H; apply Z.leb_gt in H
    end.

Ltac fold_rejected params :=
  repeat match goal with
    | H : negb (truthy (prop params ?k)) || not_string_or_blank (prop params ?k) = ?b |- _ =>
        change (rejected params k = b) in H
    end.

(** Evaluates the observations of a run on the events it emitted. *)
Ltac observe :=
  cbn [app exchanges requests flat_map map fst snd message error_message
       classified retryable] in *.

(** ** Input validation *)

(** The test of [validateInputs] rejects exactly the identifiers that
    are absent, not strings, or blank. *)
Lemma rejected_iff params k : rejected params k = true <-> invalid_identifier params k.
Proof.
  unfold rejected, invalid_identifier, prop.
  destruct (params !! k) as [[| | b | n | s | items | o] |]; cbn;
    rewrite ?orb_true_r; try (intuition congruence).
  destruct (String.eqb_spec (trim s) ""); destruct (String.eqb_spec s ""); subst; cbn;
    intuition congruence.
Qed.

(** C2: when [sessionId] or [authMethodId] is absent, not a string or
    blank after trimming, [invoke] raises a fatal, non-retryable error
    whose message names the offending field ([sessionId] when it is
    invalid, [authMethodId] otherwise), and no request is sent. *)
Theorem invoke_invalid_identifier params ctx h :
  invalid_identifier params "sessionId" \/ invalid_identifier params "authMethodId" ->
  exists msg,
    outcome (invoke params ctx) h = inl (FatalError msg) /\
    retryable (FatalError msg) = Some false /\
    (invalid_identifier params "sessionId" ->
     msg = "Invalid or missing sessionId parameter") /\
    (~ invalid_identifier params "sessionId" ->
     msg = "Invalid or missing authMethodId parameter") /\
    requests (trace (invoke params ctx) h) = [].
Proof.
  intros Hinv.
  wp_start (invoke params ctx) h.
  wp_run; fold_rejected params;
    try (exfalso; rewrite <- !rejected_iff in Hinv; destruct Hinv; congruence).
  - eexists; repeat split; try reflexivity.
    intros Hvalid. rewrite <- rejected_iff in Hvalid. congruence.
  - eexists; repeat split; try reflexivity.
    intros Hsid. rewrite <- rejected_iff in Hsid. congruence.
Qed.

(** ** Failures before and during the three calls *)

(** When the identifiers are valid and both secrets are present but
    [getBaseURL] throws, [invoke] re-raises that error wrapped as a
    [FatalError], and no request is sent. *)
Lemma invoke_getBaseURL_throws params ctx h e :
  ~ invalid_identifier params "sessionId" ->
  ~ invalid_identifier params "authMethodId" ->
  truthy (optional_get (secrets ctx) "BASIC_USERNAME") = true ->
  truthy (optional_get (secrets ctx) "BASIC_PASSWORD") = true ->
  getBaseURL params ctx = inl e ->
  outcome (invoke params ctx) h =
    inl (FatalError ("Unexpected error: " +:+ error_message e)) /\
  requests (trace (invoke params ctx) h) = [].
Proof.
  intros Hsid Hamid Huser Hpass Hurl.
  rewrite <- rejected_iff in Hsid, Hamid.
  wp_start (invoke params ctx) h.
  wp_run; fold_rejected params; try congruence;
    try (rewrite Huser, Hpass in *; discriminate).
  observe. simplify_eq. split; reflexivity.
Qed.

(** The error a run ends in when the body of a failed response cannot
    be read: [text()] rejects before any status is tested, and the
    [catch] block wraps what it threw. *)
Definition unreadable (e : ForeignError) : JsError :=
  FatalError ("Unexpected error: " +:+ error_message e).

(** C4 (amended): when the authenticate call is answered with 401 or
    403, [invoke] raises a fatal error and the authenticate request is
    the only one sent; the message is "Invalid username or password"
    when the body of the response can be read, and "Unexpected error: "
    followed by the reason when it cannot. *)
Theorem invoke_authenticate_unauthorized params ctx h q r rest :
  exchanges (trace (invoke params ctx) h) = (q, inr r) :: rest ->
  status r = 401 \/ status r = 403 ->
  outcome (invoke params ctx) h =
    inl (match text r with
         | inr _ => FatalError "Invalid username or password"
         | inl e => unreadable e
         end) /\
  (exists msg, outcome (invoke params ctx) h = inl (FatalError msg) /\
               retryable (FatalError msg) = Some false) /\
  rest = [] /\
  exists baseUrl base id,
    getBaseURL params ctx = inr baseUrl /\
    ToString baseUrl = inr base /\
    prop params "authMethodId" = JsString id /\
    q = authenticate_request id
          (get (secrets ctx) "BASIC_USERNAME") (get (secrets ctx) "BASIC_PASSWORD") base.
Proof.
  intros Hex Hst. revert Hex.
  wp_start (invoke params ctx) h.
  wp_run; observe; intros Hex; simplify_eq; bool_facts; try lia.
  all: repeat match goal with H : text _ = _ |- _ => rewrite H end.
  all: (split; [reflexivity |]); (split; [eexists; split; reflexivity |]);
    (split; [reflexivity |]); do 3 eexists; repeat split; eassumption.
Qed.

(** C5 (amended): when authentication has succeeded and the
    read-session call is answered with 404, [invoke] raises a fatal
    error and no cancel request is sent; the message is "Session not
    found: <sessionId>" when the body of the response can be read, and
    "Unexpected error: " followed by the reason when it cannot. *)
Theorem invoke_session_not_found params ctx h q1 r1 q2 r2 rest :
  exchanges (trace (invoke params ctx) h) = (q1, inr r1) :: (q2, inr r2) :: rest ->
  status r2 = 404 ->
  exists id baseUrl base data bearer,
    prop params "sessionId" = JsString id /\
    outcome (invoke params ctx) h =
      inl (match text r2 with
           | inr _ => FatalError ("Session not found: " +:+ id)
           | inl e => unreadable e
           end) /\
    rest = [] /\
    ok r1 = true /\
    getBaseURL params ctx = inr baseUrl /\
    ToString baseUrl = inr base /\
    json r1 = inr data /\
    ToString (get (get data "attributes") "token") = inr bearer /\
    q2 = getSession_request id bearer base.
Proof.
  intros Hex Hst. revert Hex.
  wp_start (invoke params ctx) h.
  wp_run; observe; intros Hex; simplify_eq; bool_facts; try lia.
  all: repeat match goal with H : text _ = _ |- _ => rewrite H end.
  all: do 5 eexists; repeat split; try eassumption; try reflexivity.
  all: unfold ok; apply andb_true_iff; split; apply Z.leb_le; lia.
Qed.

(** C6 (amended): when the cancel call is answered with 409, [invoke]
    raises a fatal, non-retryable error, the cancel request is the last
    request sent and no result is returned.  When the body of the
    response can be read the message is "Session conflict (may already
    be cancelled): " followed by that body, which names the conflict and
    the possible earlier cancellation and nothing else; when it cannot,
    the message is "Unexpected error: " followed by the reason. *)
Theorem invoke_cancel_conflict params ctx h x1 x2 q3 r3 rest :
  exchanges (trace (invoke params ctx) h) = x1 :: x2 :: (q3, inr r3) :: rest ->
  status r3 = 409 ->
  outcome (invoke params ctx) h =
    inl (match text r3 with
         | inr content => FatalError ("Session conflict (may already be cancelled): " +:+ content)
         | inl e => unreadable e
         end) /\
  (exists msg, outcome (invoke params ctx) h = inl (FatalError msg) /\
               retryable (FatalError msg) = Some false) /\
  rest = [] /\
  exists id version bearer base,
    prop params "sessionId" = JsString id /\
    q3 = cancelSession_request id (prop params "sessionId") version bearer base.
Proof.
  intros Hex Hst. revert Hex.
  wp_start (invoke params ctx) h.
  wp_run; observe; intros Hex; simplify_eq; bool_facts; try lia.
  all: repeat match goal with H : text _ = _ |- _ => rewrite H end.
  all: (split; [reflexivity |]); (split; [eexists; split; reflexivity |]);
    (split; [reflexivity |]); do 4 eexists; split; [eassumption | reflexivity].
Qed.

(** Each of the three helpers classifies a 429 and a status of 500 or
    more, on a response whose body can be read, as retryable. *)
Lemma authenticate_transient authMethodId username password baseUrl id base h r content :
  ToString baseUrl = inr base ->
  ToString authMethodId = inr id ->
  network env h (authenticate_request id username password base) = inr r ->
  text r = inr content ->
  transient r ->
  exists msg,
    outcome (authenticate authMethodId username password baseUrl) h = inl (RetryableError msg).
Proof.
  unfold transient. intros Hbase Hid Hnet Htext Hst.
  wp_start (authenticate authMethodId username password baseUrl) h.
  wp_run; rewrite ?app_nil_r in *; rewrite ?Hnet in *; simplify_eq; try congruence;
    bool_facts; try lia; eexists; reflexivity.
Qed.

Lemma getSession_transient sessionId token baseUrl id bearer base h r content :
  ToString baseUrl = inr base ->
  ToString sessionId = inr id ->
  ToString token = inr bearer ->
  network env h (getSession_request id bearer base) = inr r ->
  text r = inr content ->
  transient r ->
  exists msg, outcome (getSession sessionId token baseUrl) h = inl (RetryableError msg).
Proof.
  unfold transient. intros Hbase Hid Hbearer Hnet Htext Hst.
  wp_start (getSession sessionId token baseUrl) h.
  wp_run; rewrite ?app_nil_r in *; rewrite ?Hnet in *; simplify_eq; try congruence;
    bool_facts; try lia; eexists; reflexivity.
Qed.

Lemma cancelSession_transient sessionId version token baseUrl id bearer base h r content :
  ToString baseUrl = inr base ->
  ToString sessionId = inr id ->
  ToString token = inr bearer ->
  network env h (cancelSession_request id sessionId version bearer base) = inr r ->
  text r = inr content ->
  transient r ->
  exists msg,
    outcome (cancelSession sessionId version token baseUrl) h = inl (RetryableError msg).
Proof.
  unfold transient. intros Hbase Hid Hbearer Hnet Htext Hst.
  wp_start (cancelSession sessionId version token baseUrl) h.
  wp_run; rewrite ?app_nil_r in *; rewrite ?Hnet in *; simplify_eq; try congruence;
    bool_facts; try lia; eexists; reflexivity.
Qed.

(** C7 (amended): whenever one of the calls of [invoke] is answered
    with 429 or with a status of 500 or more and the body of that
    response can be read, the error raised is a [RetryableError]; every
    other error raised by [invoke] is a [FatalError], the one raised
    when the body of such a response cannot be read included. *)
Theorem invoke_error_classification params ctx h :
  (forall q r,
      In (q, inr r) (exchanges (trace (invoke params ctx) h)) ->
      transient r ->
      match text r with
      | inr _ =>
          exists msg,
            outcome (invoke params ctx) h = inl (RetryableError msg) /\
            retryable (RetryableError msg) = Some true
      | inl e =>
          outcome (invoke params ctx) h = inl (unreadable e) /\
          retryable (unreadable e) = Some false
      end) /\
  (forall e,
      outcome (invoke params ctx) h = inl e ->
      (exists msg, e = FatalError msg /\ retryable e = Some false) \/
      (exists msg q r content,
          e = RetryableError msg /\
          In (q, inr r) (exchanges (trace (invoke params ctx) h)) /\
          transient r /\
          text r = inr content)).
Proof.
  unfold transient.
  wp_start (invoke params ctx) h.
  wp_run; observe; (split; [intros ? ? Hin Hst | intros err Herr]);
    cbn [In] in *; simplify_eq.
  all: try (left; eexists; split; reflexivity).
  all: try (right; bool_facts; do 4 eexists; (split; [reflexivity |]);
            first [ solve [split; [left; reflexivity | split; [lia | eassumption]]]
                  | solve [split; [right; left; reflexivity | split; [lia | eassumption]]]
                  | solve [split; [right; right; left; reflexivity | split; [lia | eassumption]]] ]).
  all: repeat match goal with H : _ \/ _ |- _ => destruct H end;
    simplify_eq; bool_facts; try lia; try contradiction.
  all: repeat match goal with H : text _ = _ |- _ => rewrite H end.
  all: first [ eexists; split; reflexivity | split; reflexivity ].
Qed.


(** C9 (amended): for every input, [halt] sends no request.  It
    raises only where its first two lines throw: the destructuring,
    when [params] is [undefined] or [null], and the log line, when
    [reason] cannot be converted to a string.  Otherwise it returns a
    record with [cleanupCompleted] set, [haltedAt] the printed clock
    reading, and for each of [sessionId], [authMethodId] and [reason]
    the input's value when that is truthy and ["unknown"] when it is
    missing or falsy. *)
Theorem halt_result params ctx h :
  requests (trace (halt params ctx) h) = [] /\
  match nullish params, ToString (get params "reason") with
  | true, _ =>
      exists e, outcome (halt params ctx) h = inl (Thrown e) /\ error_name e = "TypeError"
  | false, inl e => outcome (halt params ctx) h = inl (Thrown e)
  | false, inr _ =>
      exists r t,
        outcome (halt params ctx) h = inr r /\
        echo_or_unknown params "sessionId" (HaltResult.sessionId r) /\
        echo_or_unknown params "authMethodId" (HaltResult.authMethodId r) /\
        echo_or_unknown params "reason" (HaltResult.reason r) /\
        In (Now t) (trace (halt params ctx) h) /\
        HaltResult.haltedAt r = toISOString t /\
        HaltResult.cleanupCompleted r = true
  end.
Proof.
  wp_start (halt params ctx) h.
  wp_run; observe; (split; [reflexivity |]).
  - eexists. split; reflexivity.
  - reflexivity.
  - do 2 eexists. split; [reflexivity |]. cbn [HaltResult.sessionId HaltResult.authMethodId
      HaltResult.reason HaltResult.haltedAt HaltResult.cleanupCompleted].
    repeat split; try reflexivity;
      try (unfold echo_or_unknown, or_else;
           match goal with |- context [truthy ?v] => destruct (truthy v) end; tauto).
    cbn [In]; auto.
Qed.

(** C10: the presence checks are truthiness checks.  A 2xx
    read-session response whose JSON body has [version] equal to 0 makes
    [getSession] raise "No version returned from session", and a 2xx
    authenticate response whose [attributes.token] is the empty string
    makes [authenticate] raise "No token returned from authentication".
    The request that is answered is the one built from the strings the
    arguments convert to. *)
Theorem falsy_version_and_token_rejected :
  (forall sessionId token baseUrl id bearer base h r data,
      ToString baseUrl = inr base ->
      ToString sessionId = inr id ->
      ToString token = inr bearer ->
      network env h (getSession_request id bearer base) = inr r ->
      ok r = true ->
      json r = inr (JsObject data) ->
      data !! "version" = Some (JsNumber 0) ->
      outcome (getSession sessionId token baseUrl) h =
        inl (FatalError "No version returned from session")) /\
  (forall authMethodId username password baseUrl id base h r data attributes,
      ToString baseUrl = inr base ->
      ToString authMethodId = inr id ->
      network env h (authenticate_request id username password base) = inr r ->
      ok r = true ->
      json r = inr (JsObject data) ->
      data !! "attributes" = Some (JsObject attributes) ->
      attributes !! "token" = Some (JsString "") ->
      outcome (authenticate authMethodId username password baseUrl) h =
        inl (FatalError "No token returned from authentication")).
Proof.
  split.
  - intros sessionId token baseUrl id bearer base h r data
      Hbase Hid Hbearer Hnet Hok Hjson Hversion.
    unfold outcome, getSession, template, call, bind, fetch.
    rewrite Hbase; cbn. rewrite Hid; cbn. rewrite Hbearer; cbn.
    rewrite !app_nil_r, Hnet. cbn.
    rewrite Hok. cbn. unfold response_json. rewrite Hjson. cbn.
    unfold prop. rewrite Hversion. reflexivity.
  - intros authMethodId username password baseUrl id base h r data attributes
      Hbase Hid Hnet Hok Hjson Hattributes Htoken.
    unfold outcome, authenticate, template, call, bind, fetch.
    rewrite Hbase; cbn. rewrite Hid; cbn.
    rewrite !app_nil_r, Hnet. cbn.
    rewrite Hok. cbn. unfold response_json. rewrite Hjson. cbn.
    unfold prop. rewrite Hattributes. cbn. unfold prop. rewrite Htoken. reflexivity.
Qed.

(** ** The successful run *)

(** The world answers the call that follows [k] earlier calls of the
    run that started after [h] with a response that satisfies [P],
    whatever the request and whatever else the run did. *)
Definition answers (h : list Event) (k : nat) (P : Response -> Prop) : Prop :=
  forall evs q, length (exchanges evs) = k -> exists r, network env (h ++ evs) q = inr r /\ P r.

(** A 2xx whose body is JSON with a token, respectively a version, that
    is present and can be put into a string. *)
Definition gives_token (r : Response) : Prop :=
  ok r = true /\
  exists data bearer,
    json r = inr data /\
    truthy (optional_get (get data "attributes") "token") = true /\
    ToString (get (get data "attributes") "token") = inr bearer.

Definition gives_version (r : Response) : Prop :=
  ok r = true /\
  exists data printed,
    json r = inr data /\
    truthy (get data "version") = true /\
    ToString (get data "version") = inr printed.

Lemma token_present data :
  truthy (optional_get (get data "attributes") "token") = true -> nullish data = false.
Proof. destruct data; try reflexivity; discriminate. Qed.

Lemma version_present data : truthy (get data "version") = true -> nullish data = false.
Proof. destruct data; try reflexivity; discriminate. Qed.

(** The reply a call received is one the world gives to a call in its
    place. *)
Ltac use_answers :=
  repeat match goal with
    | H : network env ?hist ?q = _ |- _ =>
        rewrite <- ?app_assoc in H; cbn [app] in H;
        match type of H with
        | network env (?h ++ ?evs) _ = _ =>
            match goal with
            | R : answers h _ _ |- _ =>
                let r := fresh "r" in
                let Hr := fresh "Hr" in
                let HP := fresh "HP" in
                destruct (R evs q eq_refl) as (r & Hr & HP); rewrite Hr in H; clear Hr
            end
        end;
        revert H
    end;
  intros;
  unfold gives_token, gives_version in *;
  repeat match goal with
    | H : _ /\ _ |- _ => destruct H
    | H : exists _, _ |- _ => destruct H
    end;
  repeat match goal with
    | H : truthy (optional_get (get ?data "attributes") "token") = true |- _ =>
        lazymatch goal with
        | _ : nullish data = false |- _ => fail
        | _ => pose proof (token_present data H)
        end
    | H : truthy (get ?data "version") = true |- _ =>
        lazymatch goal with
        | _ : nullish data = false |- _ => fail
        | _ => pose proof (version_present data H)
        end
    end.

(** Two results of one computation are the same result. *)
Ltac same_result :=
  repeat match goal with
    | H1 : ?t = inr _, H2 : ?t = inr _ |- _ => rewrite H1 in H2; simplify_eq
    | H1 : ?t = inr _, H2 : ?t = inl _ |- _ => rewrite H1 in H2; discriminate H2
    end.

(** C1: when the three calls of an invocation are each answered with a
    2xx status, exactly three requests are sent: a POST to the
    authenticate address of the auth method, a GET to the address of
    the session and a POST to its cancel address, each carrying the
    [User-Agent] header.  The result echoes [sessionId] and
    [authMethodId], has [sessionCancelled] set, and [cancelledAt] is a
    valid ISO-8601 timestamp, the printed clock reading.  Such runs are
    the ones a working deployment makes: with valid identifiers, both
    secrets and a base URL, when the transport answers each call with a
    2xx, the first with a token and the second with a version in its
    body, the three calls are made and answered. *)
Theorem invoke_success params ctx h :
  (forall h', time_value (clock env h')) ->
  (forall q1 r1 q2 r2 q3 r3 rest,
      exchanges (trace (invoke params ctx) h) =
        (q1, inr r1) :: (q2, inr r2) :: (q3, inr r3) :: rest ->
      ok r1 = true -> ok r2 = true -> ok r3 = true ->
      exists sessionId authMethodId baseUrl base data1 bearer data2 t,
        rest = [] /\
        prop params "sessionId" = JsString sessionId /\
        prop params "authMethodId" = JsString authMethodId /\
        getBaseURL params ctx = inr baseUrl /\
        ToString baseUrl = inr base /\
        json r1 = inr data1 /\
        ToString (get (get data1 "attributes") "token") = inr bearer /\
        json r2 = inr data2 /\
        q1 = {| url := base +:+ "/v1/auth-methods/" +:+ encodeURIComponent authMethodId +:+
                       ":authenticate";
                method := "POST";
                headers := list_to_map [("Content-Type", "application/json");
                                        ("User-Agent", SGNL_USER_AGENT)];
                body := Some (JSON_stringify
                                (obj [("attributes",
                                       obj [("login_name", get (secrets ctx) "BASIC_USERNAME");
                                            ("password", get (secrets ctx) "BASIC_PASSWORD")])])) |} /\
        q2 = {| url := base +:+ "/v1/sessions/" +:+ encodeURIComponent sessionId;
                method := "GET";
                headers := list_to_map [("Authorization", "Bearer " +:+ bearer);
                                        ("Content-Type", "application/json");
                                        ("User-Agent", SGNL_USER_AGENT)];
                body := None |} /\
        q3 = {| url := base +:+ "/v1/sessions/" +:+ encodeURIComponent sessionId +:+ ":cancel";
                method := "POST";
                headers := list_to_map [("Authorization", "Bearer " +:+ bearer);
                                        ("Content-Type", "application/json");
                                        ("User-Agent", SGNL_USER_AGENT)];
                body := Some (JSON_stringify
                                (obj [("id", JsString sessionId);
                                      ("version", get data2 "version")])) |} /\
        (forall q, In q (requests (trace (invoke params ctx) h)) ->
                   headers q !! "User-Agent" = Some SGNL_USER_AGENT) /\
        outcome (invoke params ctx) h =
          inr {| CancelResult.sessionId := JsString sessionId;
                 CancelResult.authMethodId := JsString authMethodId;
                 CancelResult.sessionCancelled := true;
                 CancelResult.cancelledAt := toISOString t |} /\
        In (Now t) (trace (invoke params ctx) h) /\
        is_iso8601 (toISOString t) = true) /\
  (~ invalid_identifier params "sessionId" ->
   ~ invalid_identifier params "authMethodId" ->
   truthy (optional_get (secrets ctx) "BASIC_USERNAME") = true ->
   truthy (optional_get (secrets ctx) "BASIC_PASSWORD") = true ->
   (exists baseUrl base, getBaseURL params ctx = inr baseUrl /\ ToString baseUrl = inr base) ->
   answers h 0 gives_token ->
   answers h 1 gives_version ->
   answers h 2 (fun r => ok r = true) ->
   exists q1 r1 q2 r2 q3 r3,
     exchanges (trace (invoke params ctx) h) = [(q1, inr r1); (q2, inr r2); (q3, inr r3)] /\
     ok r1 = true /\ ok r2 = true /\ ok r3 = true).
Proof.
  intros Hclock. split.
  - intros q1 r1 q2 r2 q3 r3 rest Hex Hok1 Hok2 Hok3. revert Hex.
    wp_start (invoke params ctx) h.
    wp_run; observe; intros Hex; simplify_eq;
      try (exfalso; bool_facts; first [lia | congruence]).
    rewrite ?Hs, ?Hs0.
    do 8 eexists.
    repeat match goal with |- _ /\ _ => split end; try reflexivity; try eassumption.
    + intros q Hq. cbn [In] in Hq.
      repeat destruct Hq as [<- | Hq]; try contradiction; reflexivity.
    + cbn [In]. repeat (first [left; reflexivity | right]).
    + apply toISOString_valid, Hclock.
  - intros Hsid Hamid Huser Hpass (baseUrl & base & Hurl & Hbase) Hfirst Hsecond Hthird.
    rewrite <- rejected_iff in Hsid, Hamid.
    wp_start (invoke params ctx) h.
    wp_run; fold_rejected params; try congruence;
      try (rewrite Huser, Hpass in *; discriminate);
      use_answers; simplify_eq; same_result; try congruence;
      try (exfalso; bool_facts; first [lia | congruence]).
    observe. do 6 eexists. repeat split; try reflexivity; assumption.
Qed.

(** ** Further properties of the script

    What the checks and the three helpers do on the inputs and replies
    the properties above leave aside. *)

(** A call that did not succeed: the transport rejected it, or the
    reply is not a 2xx. *)
Definition failed_call (x : Request * (ForeignError + Response)) : Prop :=
  match snd x with
  | inl _ => True
  | inr r => ok r = false
  end.

(** Closes a goal [exists pre, l = pre ++ [x]] on a list of at most three
    calls. *)
Ltac last_call :=
  first [ exists []; reflexivity
        | eexists [_]; reflexivity
        | eexists [_; _]; reflexivity ].

(** X1: with valid identifiers, a missing or falsy [BASIC_USERNAME] or
    [BASIC_PASSWORD] (or no [secrets] at all) makes [invoke] raise the
    fatal error "Missing required secrets: ..." before the base URL is
    resolved and before any request. *)
Theorem invoke_missing_secrets params ctx h :
  ~ invalid_identifier params "sessionId" ->
  ~ invalid_identifier params "authMethodId" ->
  truthy (optional_get (secrets ctx) "BASIC_USERNAME") = false \/
  truthy (optional_get (secrets ctx) "BASIC_PASSWORD") = false ->
  outcome (invoke params ctx) h =
    inl (FatalError "Missing required secrets: BASIC_USERNAME and BASIC_PASSWORD") /\
  requests (trace (invoke params ctx) h) = [].
Proof.
  intros Hsid Hamid Hsecret.
  rewrite <- rejected_iff in Hsid, Hamid.
  wp_start (invoke params ctx) h.
  wp_run; fold_rejected params; try congruence;
    try (split; reflexivity).
  all: exfalso; bool_facts; destruct Hsecret; congruence.
Qed.

(** X2: a call the transport rejects (a network failure) at any of the
    three steps makes [invoke] raise a non-retryable [FatalError] with
    the message "Unexpected error: <rejection's message>", and no call
    follows it. *)
Theorem invoke_fetch_rejected params ctx h q e :
  In (q, inl e) (exchanges (trace (invoke params ctx) h)) ->
  outcome (invoke params ctx) h =
    inl (FatalError ("Unexpected error: " +:+ error_message e)) /\
  retryable (FatalError ("Unexpected error: " +:+ error_message e)) = Some false /\
  exists pre, exchanges (trace (invoke params ctx) h) = pre ++ [(q, inl e)].
Proof.
  wp_start (invoke params ctx) h.
  wp_run; observe; intros Hin; cbn [In] in Hin;
    repeat match goal with H : _ \/ _ |- _ => destruct H end;
    simplify_eq; try contradiction.
  all: split; [reflexivity | split; [reflexivity | last_call]].
Qed.

(** X3: [invoke] stops at the first call that fails: a rejected call or a
    reply that is not a 2xx is the last call of the run, and the run ends
    in an error. *)
Theorem invoke_stops_at_failed_call params ctx h x :
  In x (exchanges (trace (invoke params ctx) h)) ->
  failed_call x ->
  (exists e, outcome (invoke params ctx) h = inl e) /\
  exists pre, exchanges (trace (invoke params ctx) h) = pre ++ [x].
Proof.
  unfold failed_call.
  wp_start (invoke params ctx) h.
  wp_run; observe; intros Hin Hfail; cbn [In] in Hin;
    repeat match goal with H : _ \/ _ |- _ => destruct H end;
    simplify_eq; try contradiction; cbn [snd] in Hfail.
  all: try (split; [eexists; reflexivity | last_call]).
  all: bool_facts; unfold ok in *; bool_facts; lia.
Qed.

(** Evaluates the position of a call in a run. *)
Ltac observe_calls :=
  observe; cbn [nth_error length] in *.

(** A reply held to be a 2xx cannot have taken a failure branch. *)
Ltac status_facts := unfold ok in *; bool_facts; try lia; try congruence.

(** X4: when the authenticate or the read-session call is answered with a
    2xx whose body cannot be parsed ([json()] rejects), [invoke] raises a
    [FatalError] "Unexpected error: <parser's message>" and sends nothing
    more. *)
Theorem invoke_unreadable_body params ctx h i q r e :
  nth_error (exchanges (trace (invoke params ctx) h)) i = Some (q, inr r) ->
  (i < 2)%nat ->
  ok r = true ->
  json r = inl e ->
  outcome (invoke params ctx) h =
    inl (FatalError ("Unexpected error: " +:+ error_message e)) /\
  length (exchanges (trace (invoke params ctx) h)) = S i.
Proof.
  intros Hnth Hi Hok Hjson. destruct i as [| [| i]]; [| | lia]; revert Hnth.
  all: wp_start (invoke params ctx) h.
  all: wp_run; observe_calls; intros Hnth; simplify_eq;
    try (rewrite Hjson in *; simplify_eq).
  all: try (split; reflexivity).
  all: status_facts.
Qed.

(** X5: when the authenticate or the read-session call is answered with a
    2xx whose body is JSON [null], reading a property of it throws and
    [invoke] raises a [FatalError] "Unexpected error: ..."; nothing more
    is sent. *)
Theorem invoke_null_body params ctx h i q r data :
  nth_error (exchanges (trace (invoke params ctx) h)) i = Some (q, inr r) ->
  (i < 2)%nat ->
  ok r = true ->
  json r = inr data ->
  nullish data = true ->
  (exists msg, outcome (invoke params ctx) h = inl (FatalError ("Unexpected error: " +:+ msg))) /\
  length (exchanges (trace (invoke params ctx) h)) = S i.
Proof.
  intros Hnth Hi Hok Hjson Hnull. destruct i as [| [| i]]; [| | lia]; revert Hnth.
  all: wp_start (invoke params ctx) h.
  all: wp_run; observe_calls; intros Hnth; simplify_eq;
    try (rewrite Hjson in *; simplify_eq); try congruence.
  all: try (split; [eexists; reflexivity | reflexivity]).
  all: status_facts.
Qed.

(** X6: a 2xx authenticate reply whose body has no truthy
    [attributes.token] (no [attributes], no [token], or a falsy one)
    makes [invoke] raise "No token returned from authentication"; the
    session is neither read nor cancelled. *)
Theorem invoke_no_token params ctx h q r data rest :
  exchanges (trace (invoke params ctx) h) = (q, inr r) :: rest ->
  ok r = true ->
  json r = inr data ->
  nullish data = false ->
  truthy (optional_get (get data "attributes") "token") = false ->
  outcome (invoke params ctx) h = inl (FatalError "No token returned from authentication") /\
  rest = [].
Proof.
  intros Hex Hok Hjson Hdata Htoken. revert Hex.
  wp_start (invoke params ctx) h.
  wp_run; observe; intros Hex; simplify_eq;
    try (rewrite Hjson in *; simplify_eq); try congruence.
  all: try (split; reflexivity).
  all: status_facts.
Qed.

(** X7: a 2xx read-session reply whose body has no truthy [version]
    makes [invoke] raise "No version returned from session"; no cancel
    request is sent. *)
Theorem invoke_no_version params ctx h x q r data rest :
  exchanges (trace (invoke params ctx) h) = x :: (q, inr r) :: rest ->
  ok r = true ->
  json r = inr data ->
  nullish data = false ->
  truthy (get data "version") = false ->
  outcome (invoke params ctx) h = inl (FatalError "No version returned from session") /\
  rest = [].
Proof.
  intros Hex Hok Hjson Hdata Hversion. revert Hex.
  wp_start (invoke params ctx) h.
  wp_run; observe; intros Hex; simplify_eq;
    try (rewrite Hjson in *; simplify_eq); try congruence.
  all: try (split; reflexivity).
  all: status_facts.
Qed.

(** The body of a failed response, as the run read it. *)
Ltac body_read := repeat match goal with H : text _ = _ |- _ => rewrite H end.

(** X8: a 401 from the read-session or the cancel call makes [invoke]
    raise a fatal error, and that call is the last one; the message is
    "Invalid or expired authentication token" when the body of the
    response can be read, and "Unexpected error: " followed by the
    reason when it cannot. *)
Theorem invoke_token_rejected params ctx h i q r :
  nth_error (exchanges (trace (invoke params ctx) h)) (S i) = Some (q, inr r) ->
  status r = 401 ->
  outcome (invoke params ctx) h =
    inl (match text r with
         | inr _ => FatalError "Invalid or expired authentication token"
         | inl e => unreadable e
         end) /\
  length (exchanges (trace (invoke params ctx) h)) = S (S i).
Proof.
  intros Hnth Hst. revert Hnth.
  wp_start (invoke params ctx) h.
  wp_run; observe_calls; intros Hnth;
    do 3 (try (destruct i as [| i]; cbn [nth_error] in Hnth)); simplify_eq.
  all: body_read; try (split; reflexivity).
  all: status_facts.
Qed.

(** X9: a 404 from the cancel call (the session is gone between the read
    and the cancel) makes [invoke] raise a fatal error and send nothing
    more; the message is "Session not found: <sessionId>" when the body
    of the response can be read, and "Unexpected error: " followed by
    the reason when it cannot. *)
Theorem invoke_cancel_not_found params ctx h x1 x2 q r rest :
  exchanges (trace (invoke params ctx) h) = x1 :: x2 :: (q, inr r) :: rest ->
  status r = 404 ->
  exists id,
    prop params "sessionId" = JsString id /\
    outcome (invoke params ctx) h =
      inl (match text r with
           | inr _ => FatalError ("Session not found: " +:+ id)
           | inl e => unreadable e
           end) /\
    rest = [].
Proof.
  intros Hex Hst. revert Hex.
  wp_start (invoke params ctx) h.
  wp_run; observe; intros Hex; simplify_eq; status_facts.
  all: body_read; eexists; split; [eassumption |]; split; reflexivity.
Qed.

(** X10: a reply that is not a 2xx and has no branch of its own in the
    helper that made the call (below 500, not 429, and not 401 or 403
    for authenticate, not 401 or 404 for read-session, not 401, 404 or
    409 for cancel), and whose body can be read, makes [invoke] raise a
    [FatalError] that reports the step, the status, the status text and
    the body; when the body cannot be read the error is "Unexpected
    error: " followed by the reason.  So a 403 from read-session or
    cancel, and a 404 from authenticate, are reported this way. *)
Theorem invoke_other_status params ctx h :
  (forall q r rest,
      exchanges (trace (invoke params ctx) h) = (q, inr r) :: rest ->
      ok r = false -> status r < 500 ->
      status r <> 429 -> status r <> 401 -> status r <> 403 ->
      outcome (invoke params ctx) h =
        inl (match text r with
             | inr content =>
                 FatalError ("Failed to authenticate: " +:+ Number_toString (status r) +:+ " " +:+
                             statusText r +:+ " - " +:+ content)
             | inl e => unreadable e
             end) /\
      rest = []) /\
  (forall x q r rest,
      exchanges (trace (invoke params ctx) h) = x :: (q, inr r) :: rest ->
      ok r = false -> status r < 500 ->
      status r <> 429 -> status r <> 401 -> status r <> 404 ->
      outcome (invoke params ctx) h =
        inl (match text r with
             | inr content =>
                 FatalError ("Failed to get session: " +:+ Number_toString (status r) +:+ " " +:+
                             statusText r +:+ " - " +:+ content)
             | inl e => unreadable e
             end) /\
      rest = []) /\
  (forall x1 x2 q r rest,
      exchanges (trace (invoke params ctx) h) = x1 :: x2 :: (q, inr r) :: rest ->
      ok r = false -> status r < 500 ->
      status r <> 429 -> status r <> 401 -> status r <> 404 -> status r <> 409 ->
      outcome (invoke params ctx) h =
        inl (match text r with
             | inr content =>
                 FatalError ("Failed to cancel session: " +:+ Number_toString (status r) +:+ " " +:+
                             statusText r +:+ " - " +:+ content)
             | inl e => unreadable e
             end) /\
      rest = []).
Proof.
  wp_start (invoke params ctx) h.
  wp_run; observe; (split; [| split]); intros; simplify_eq.
  all: body_read; try (split; reflexivity).
  all: status_facts.
Qed.

(** X11: the retryable errors say what happened.  On a response whose
    body can be read, a 429 at any step gives "Boundary API rate limit
    exceeded" and a status of 500 or more gives "Boundary API server
    error: <status>"; when the body cannot be read, the error is the
    fatal "Unexpected error: " followed by the reason. *)
Theorem invoke_transient_messages params ctx h q r :
  In (q, inr r) (exchanges (trace (invoke params ctx) h)) ->
  (status r = 429 ->
   outcome (invoke params ctx) h =
     inl (match text r with
          | inr _ => RetryableError "Boundary API rate limit exceeded"
          | inl e => unreadable e
          end)) /\
  (500 <= status r ->
   outcome (invoke params ctx) h =
     inl (match text r with
          | inr _ => RetryableError ("Boundary API server error: " +:+
                                     Number_toString (status r))
          | inl e => unreadable e
          end)).
Proof.
  wp_start (invoke params ctx) h.
  wp_run; observe; intros Hin; cbn [In] in Hin;
    repeat match goal with H : _ \/ _ |- _ => destruct H end;
    simplify_eq; try contradiction.
  all: body_read; split; intros Hst; try reflexivity; status_facts.
Qed.

(** The calls and the pauses of a run, in order: the method of each
    request and the length of each pause. *)
Definition pace (evs : list Event) : list (string + Z) :=
  flat_map (fun e =>
              match e with
              | Fetch q _ => [inl (method q)]
              | Timeout ms => [inr ms]
              | _ => []
              end) evs.


(** X13: every request of every run, failed runs included, carries the
    [Content-Type] and the [User-Agent] header. *)
Theorem invoke_request_headers params ctx h q :
  In q (requests (trace (invoke params ctx) h)) ->
  headers q !! "Content-Type" = Some "application/json" /\
  headers q !! "User-Agent" = Some SGNL_USER_AGENT.
Proof.
  wp_start (invoke params ctx) h.
  wp_run; observe; intros Hin; cbn [In] in Hin;
    repeat match goal with H : _ \/ _ |- _ => destruct H end;
    simplify_eq; try contradiction.
  all: split; reflexivity.
Qed.

(** X14: the authenticate request carries no [Authorization] header;
    every later request of the run carries [Bearer] followed by the
    string the token of the authenticate reply converts to. *)
Theorem invoke_bearer_token params ctx h q1 r1 i q a :
  nth_error (exchanges (trace (invoke params ctx) h)) 0 = Some (q1, inr r1) ->
  nth_error (exchanges (trace (invoke params ctx) h)) (S i) = Some (q, a) ->
  headers q1 !! "Authorization" = None /\
  exists data bearer,
    json r1 = inr data /\
    ToString (get (get data "attributes") "token") = inr bearer /\
    headers q !! "Authorization" = Some ("Bearer " +:+ bearer).
Proof.
  intros Hfirst Hlater. revert Hfirst Hlater.
  wp_start (invoke params ctx) h.
  wp_run; observe_calls; intros Hfirst Hlater;
    do 3 (try (destruct i as [| i]; cbn [nth_error] in Hlater)); simplify_eq.
  all: split; [reflexivity | do 2 eexists; split; [eassumption |]; split;
                             [eassumption | reflexivity]].
Qed.

(** X15: [invoke] returns a result only when the session was cancelled:
    the run made exactly three calls, each answered with a 2xx, read the
    clock, and logged no error; the result echoes the identifiers and
    has [sessionCancelled] set. *)
Theorem invoke_result_means_cancelled params ctx h res :
  outcome (invoke params ctx) h = inr res ->
  (exists q1 r1 q2 r2 q3 r3,
      exchanges (trace (invoke params ctx) h) =
        [(q1, inr r1); (q2, inr r2); (q3, inr r3)] /\
      ok r1 = true /\ ok r2 = true /\ ok r3 = true) /\
  CancelResult.sessionId res = prop params "sessionId" /\
  CancelResult.authMethodId res = prop params "authMethodId" /\
  CancelResult.sessionCancelled res = true /\
  (exists t, In (Now t) (trace (invoke params ctx) h) /\
             CancelResult.cancelledAt res = toISOString t) /\
  forall line, ~ In (ConsoleError line) (trace (invoke params ctx) h).
Proof.
  wp_start (invoke params ctx) h.
  wp_run; observe; intros Hres; simplify_eq.
  all: split; [do 6 eexists; split; [reflexivity |]; status_facts |].
  all: do 3 (split; [reflexivity |]).
  all: split; [eexists; split; [| reflexivity]; cbn [In]; tauto |].
  all: intros line Hin; cbn [In] in Hin;
    repeat match goal with H : _ \/ _ |- _ => destruct H end;
    simplify_eq; try contradiction.
Qed.



(** X17: the cancel request of a run, whatever its reply, is a POST to
    the address of the session that was just read, followed by
    [:cancel], and its body carries the session identifier and the
    version the read-session reply gave; the read request has no body. *)
Theorem invoke_cancel_sends_version_read params ctx h x1 q2 r2 q3 a3 rest :
  exchanges (trace (invoke params ctx) h) = x1 :: (q2, inr r2) :: (q3, a3) :: rest ->
  exists data,
    json r2 = inr data /\
    method q3 = "POST" /\
    url q3 = url q2 +:+ ":cancel" /\
    body q3 = Some (JSON_stringify (obj [("id", prop params "sessionId");
                                          ("version", get data "version")])) /\
    body q2 = None.
Proof.
  intros Hex. revert Hex.
  wp_start (invoke params ctx) h.
  wp_run; observe; intros Hex; simplify_eq.
  all: eexists; split; [eassumption |].
  all: cbn [method url body getSession_request cancelSession_request].
  all: rewrite !append_assoc; repeat split; reflexivity.
Qed.

(** The lines written to the console, by [console.log] and by
    [console.error]. *)
Definition console_lines (evs : list Event) : list string :=
  flat_map (fun e =>
              match e with
              | ConsoleLog line | ConsoleError line => [line]
              | _ => []
              end) evs.

(** *** A run beside another one

    [wp_replay m h l Q]: when [m], run from [h], is answered with
    replies from the head of [l], in order, [Q] holds of what it emits,
    of its outcome and of the replies left over. *)
Definition wp_replay {A} (m : M A) (h : list Event) (l : list (ForeignError + Response))
    (Q : list Event -> JsError + A -> list (ForeignError + Response) -> Prop) : Prop :=
  forall rest, l = map snd (exchanges (trace m h)) ++ rest -> Q (trace m h) (outcome m h) rest.

Lemma exchanges_app evs evs' : exchanges (evs ++ evs') = exchanges evs ++ exchanges evs'.
Proof. apply flat_map_app. Qed.

Lemma replay_start {A} (m : M A) h l (C : list Event -> JsError + A -> Prop) :
  wp_replay m h l (fun t o rest => rest = [] -> C t o) ->
  l = map snd (exchanges (trace m h)) -> C (trace m h) (outcome m h).
Proof.
  intros H Hl. apply (H []); [| reflexivity]. rewrite app_nil_r. exact Hl.
Qed.

Lemma replay_ret {A} (a : A) h l Q : Q [] (inr a) l -> wp_replay (ret a) h l Q.
Proof. intros HQ rest Hl. cbn in Hl. subst l. exact HQ. Qed.

Lemma replay_throw {A} (e : JsError) h l
    (Q : list Event -> JsError + A -> list (ForeignError + Response) -> Prop) :
  Q [] (inl e) l -> wp_replay (throw e) h l Q.
Proof. intros HQ rest Hl. cbn in Hl. subst l. exact HQ. Qed.

Lemma replay_emit (e : Event) h l Q :
  exchanges [e] = [] -> Q [e] (inr tt) l -> wp_replay (emit e) h l Q.
Proof.
  intros He HQ rest Hl. change (trace (emit e) h) with [e] in Hl.
  rewrite He in Hl. cbn in Hl. subst l. exact HQ.
Qed.

Lemma replay_Date_now h l Q :
  Q [Now (clock env h)] (inr (clock env h)) l -> wp_replay Date_now h l Q.
Proof. intros HQ rest Hl. cbn in Hl. subst l. exact HQ. Qed.

Lemma replay_fetch (q : Request) h l Q :
  (forall a rest,
      l = a :: rest -> network env h q = a ->
      Q [Fetch q a] (match a with inl e => inl (Thrown e) | inr r => inr r end) rest) ->
  wp_replay (fetch q) h l Q.
Proof.
  intros H rest Hl. unfold trace, outcome, fetch in *. cbn in *.
  exact (H _ _ Hl eq_refl).
Qed.

Lemma replay_bind {A B} (m : M A) (k : A -> M B) h l Q :
  wp_replay m h l
    (fun evs r rest =>
       match r with
       | inl e => Q evs (inl e) rest
       | inr a => wp_replay (k a) (h ++ evs) rest (fun evs' r' rest' => Q (evs ++ evs') r' rest')
       end) ->
  wp_replay (bind m k) h l Q.
Proof.
  unfold wp_replay, trace, outcome, bind.
  destruct (m h) as [evs [e | a]]; cbn; [exact (fun H => H) |].
  destruct (k a (h ++ evs)) as [evs' r']; cbn.
  intros H rest Hl. rewrite exchanges_app, map_app, <- app_assoc in Hl.
  exact (H _ Hl rest eq_refl).
Qed.

Lemma replay_try_catch {A} (m : M A) (handler : JsError -> M A) h l Q :
  wp_replay m h l
    (fun evs r rest =>
       match r with
       | inl e => wp_replay (handler e) (h ++ evs) rest
                    (fun evs' r' rest' => Q (evs ++ evs') r' rest')
       | inr a => Q evs (inr a) rest
       end) ->
  wp_replay (try_catch m handler) h l Q.
Proof.
  unfold wp_replay, trace, outcome, try_catch.
  destruct (m h) as [evs [e | a]]; cbn; [| exact (fun H => H)].
  destruct (handler e (h ++ evs)) as [evs' r']; cbn.
  intros H rest Hl. rewrite exchanges_app, map_app, <- app_assoc in Hl.
  exact (H _ Hl rest eq_refl).
Qed.

(** One step of a run beside one already executed: each reply is the
    one the first run received, and a test whose value the first run
    fixed is not split again. *)
Ltac replay_step :=
  cbv beta iota zeta;
  lazymatch goal with
  | |- wp_replay ?m _ _ _ =>
      lazymatch m with
      | bind _ _ => apply replay_bind
      | try_catch _ _ => apply replay_try_catch
      | ret _ => apply replay_ret
      | throw _ => apply replay_throw
      | emit _ => apply replay_emit; [reflexivity |]
      | fetch _ =>
          let Hl := fresh in
          apply replay_fetch; intros ? ? Hl;
          first [ discriminate Hl | injection Hl as <- <-; intros ? ]
      | Date_now => apply replay_Date_now
      | (if classified ?e then _ else _) =>
          first [ progress cbn [classified] | destruct e ]
      | (if ?c then _ else _) =>
          first [ match goal with H : c = _ |- _ => rewrite H end
                | destruct c eqn:?; try congruence ]
      | (match ?x with _ => _ end) =>
          first [ match goal with H : x = _ |- _ => rewrite H end
                | destruct x eqn:?; try congruence ]
      | console_log _ => unfold console_log
      | console_error _ => unfold console_error
      | setTimeout _ => unfold setTimeout
      | response_json _ => unfold response_json
      | response_text _ => unfold response_text
      | template _ => unfold template
      | call _ => unfold call
      | member _ _ => unfold member
      | validateInputs _ => unfold validateInputs
      | authenticate _ _ _ _ => unfold authenticate
      | getSession _ _ _ => unfold getSession
      | cancelSession _ _ _ _ => unfold cancelSession
      | invoke_try _ _ => unfold invoke_try
      | invoke_catch _ => unfold invoke_catch
      | invoke _ _ => unfold invoke
      end
  end.

(** Starts the second run on the replies [Hreplies] says it received. *)
Ltac replay_start m h Hreplies :=
  pattern (trace m h), (outcome m h);
  lazymatch goal with |- ?C _ _ => refine (replay_start m h _ C _ Hreplies) end.

(** X18: the credentials are never written to the console, and no
    error carries them.  Two runs on the same parameters that differ in
    the credentials only (both present or both missing, the same base
    URL resolved) and receive the same replies write the same lines and,
    when they fail, raise the same error. *)
Theorem invoke_console_hides_credentials params ctx ctx' h h' :
  truthy (optional_get (secrets ctx) "BASIC_USERNAME") =
    truthy (optional_get (secrets ctx') "BASIC_USERNAME") ->
  truthy (optional_get (secrets ctx) "BASIC_PASSWORD") =
    truthy (optional_get (secrets ctx') "BASIC_PASSWORD") ->
  getBaseURL params ctx = getBaseURL params ctx' ->
  map snd (exchanges (trace (invoke params ctx) h)) =
    map snd (exchanges (trace (invoke params ctx') h')) ->
  console_lines (trace (invoke params ctx) h) =
    console_lines (trace (invoke params ctx') h') /\
  forall e, outcome (invoke params ctx) h = inl e ->
            outcome (invoke params ctx') h' = inl e.
Proof.
  intros Huser Hpass Hurl.
  remember (trace (invoke params ctx') h') as t' eqn:Ht'.
  remember (outcome (invoke params ctx') h') as o' eqn:Ho'.
  wp_start (invoke params ctx) h.
  wp_run;
    (cbv beta; observe; subst t' o'; intros Hreplies;
     replay_start (invoke params ctx') h' Hreplies;
     (repeat replay_step;
      (cbv beta; cbn [console_lines flat_map app message error_message];
       intros Hrest; simplify_eq;
       first [ congruence
             | split; [reflexivity | intros ? He; first [exact He | discriminate He]] ]))).
Qed.

(** ** The [error] and [halt] handlers *)

(** The [error] handler of the script.  The framework calls it with the
    original parameters and, under [params.error], the error it caught:
    [error] below, an error object. *)
Definition error (params : JsProps) (error : JsError) (_context : Context) : M CancelResult.t :=
  console_error ("Error handler invoked: " +:+ message error) ;;
  throw error.

(** X19: [invoke] never lets an error of another kind escape: whatever
    it raises is a [RetryableError] or a [FatalError], so the [retryable]
    flag is always set.  Given to the [error] handler, that error is
    raised again as it is, after one error line and without any request,
    pause or clock reading. *)
Theorem invoke_failure_then_error params ctx h e :
  outcome (invoke params ctx) h = inl e ->
  (exists flag, retryable e = Some flag) /\
  forall params' ctx' h',
    outcome (error params' e ctx') h' = inl e /\
    trace (error params' e ctx') h' = [ConsoleError ("Error handler invoked: " +:+ message e)].
Proof.
  wp_start (invoke params ctx) h.
  wp_run; observe; intros Herr; simplify_eq.
  all: split; [eexists; reflexivity | intros; split; reflexivity].
Qed.

(** X20: every field of the record [halt] returns is defined.  When
    [params] is neither [undefined] nor [null] and [reason] can be
    converted to a string, [halt] returns a record in which the two
    identifiers and the reason are truthy values (never [undefined],
    [null] or an empty string) and [haltedAt] is a valid ISO-8601
    timestamp. *)
Theorem halt_fields_defined params ctx h printed :
  (forall h', time_value (clock env h')) ->
  nullish params = false ->
  ToString (get params "reason") = inr printed ->
  exists r,
    outcome (halt params ctx) h = inr r /\
    truthy (HaltResult.sessionId r) = true /\
    truthy (HaltResult.authMethodId r) = true /\
    truthy (HaltResult.reason r) = true /\
    is_iso8601 (HaltResult.haltedAt r) = true.
Proof.
  intros Hclock Hparams Hreason.
  wp_start (halt params ctx) h.
  wp_run.
  eexists. split; [reflexivity |].
  cbn [HaltResult.sessionId HaltResult.authMethodId HaltResult.reason HaltResult.haltedAt].
  repeat split;
    try (unfold or_else;
         match goal with |- context [if truthy ?v then _ else _] => destruct (truthy v) eqn:Hv end;
         [exact Hv | reflexivity]).
  apply toISOString_valid, Hclock.
Qed.

(** ** Input validation and request addresses *)

(** A string with at least one character that is not white space. *)
Definition identifier (v : JsValue) : Prop :=
  exists s, v = JsString s /\ all_chars is_white_space s = false.

(** X21: [validateInputs] accepts the parameters exactly when
    [sessionId] and [authMethodId] are both strings holding a character
    that is not white space; accepting or not, it has no effect. *)
Theorem validateInputs_accepts_iff params h :
  trace (validateInputs params) h = [] /\
  (outcome (validateInputs params) h = inr tt <->
   identifier (prop params "sessionId") /\ identifier (prop params "authMethodId")).
Proof.
  assert (Hid : forall v, negb (truthy v) || not_string_or_blank v = false <-> identifier v).
  { intros v. unfold identifier. destruct v as [| | b | n | s | items | o]; cbn;
      rewrite ?orb_true_r;
      try (split; [discriminate | intros (s' & [=] & _)]).
    destruct (String.eqb_spec (trim s) "") as [Hblank | Hblank];
      rewrite ?orb_true_r, ?orb_false_r.
    - split; [discriminate |]. intros (s' & [= <-] & Hs).
      apply trim_blank_iff in Hblank. congruence.
    - destruct (String.eqb_spec s "") as [-> | Hs]; [contradiction Hblank; reflexivity |].
      split; [| reflexivity]. intros _. exists s. split; [reflexivity |].
      destruct (all_chars is_white_space s) eqn:Hall; [| reflexivity].
      apply trim_blank_iff in Hall. contradiction. }
  wp_start (validateInputs params) h.
  wp_run; (split; [reflexivity |]).
  - split; [discriminate |]. intros [H _]. apply Hid in H. congruence.
  - split; [discriminate |]. intros [_ H]. apply Hid in H. congruence.
  - split; [| reflexivity]. intros _. split; apply Hid; assumption.
Qed.

(** X22: the identifiers are put into the request addresses escaped:
    the part of each address that comes from an identifier (from the
    string it converts to) is made of letters, digits,
    [- _ . ! ~ * ' ( )] and percent signs only, so it holds no slash,
    question mark or hash and cannot change the path. *)
Theorem request_urls_escape_identifiers (authMethodId sessionId : string) username password
    (id : JsValue) version (token baseUrl : string) :
  exists a s,
    url (authenticate_request authMethodId username password baseUrl) =
      baseUrl +:+ "/v1/auth-methods/" +:+ a +:+ ":authenticate" /\
    url (getSession_request sessionId token baseUrl) =
      baseUrl +:+ "/v1/sessions/" +:+ s /\
    url (cancelSession_request sessionId id version token baseUrl) =
      baseUrl +:+ "/v1/sessions/" +:+ s +:+ ":cancel" /\
    all_chars escaped_char a = true /\
    all_chars escaped_char s = true /\
    escaped_char "/" = false /\ escaped_char "?" = false /\ escaped_char "#" = false.
Proof.
  exists (encodeURIComponent authMethodId), (encodeURIComponent sessionId).
  repeat split; apply encodeURIComponent_escaped.
Qed.

(** X23: for one base URL, two sessions have the same read address, or
    the same cancel address, only when their identifiers are equal; the
    same holds of the authenticate address and the auth method. *)
Theorem request_urls_distinguish_identifiers (id id' : string) username password
    (value value' : JsValue) version version' (token token' baseUrl : string) :
  (url (authenticate_request id username password baseUrl) =
   url (authenticate_request id' username password baseUrl) -> id = id') /\
  (url (getSession_request id token baseUrl) =
   url (getSession_request id' token' baseUrl) -> id = id') /\
  (url (cancelSession_request id value version token baseUrl) =
   url (cancelSession_request id' value' version' token' baseUrl) -> id = id').
Proof.
  cbn [url authenticate_request getSession_request cancelSession_request].
  repeat split; intros H.
  - apply append_inv_head, append_inv_head, append_inv_tail in H.
    exact (encodeURIComponent_inj _ _ H).
  - apply append_inv_head, append_inv_head in H.
    exact (encodeURIComponent_inj _ _ H).
  - apply append_inv_head, append_inv_head, append_inv_tail in H.
    exact (encodeURIComponent_inj _ _ H).
Qed.

End Script.

(** ** The base URL, as the utilities package resolves it *)

Lemma utils_getBaseURL_absent params ctx :
  url_absent params ctx ->
  utils_getBaseURL params ctx =
    inl {| error_name := "Error";
           error_message := "No URL specified. Provide address parameter or ADDRESS environment variable" |}.
Proof.
  intros [Hparam Henv]. unfold utils_getBaseURL, prop.
  rewrite Hparam, Henv. reflexivity.
Qed.

(** C3 (amended): with valid identifiers and both credential secrets
    present, an absent base URL makes [invoke] fail fatally with the
    missing-URL message of [getBaseURL], wrapped as an unexpected
    error, before any request is sent. *)
Theorem invoke_missing_base_url user_agent stringify env params ctx h :
  ~ invalid_identifier params "sessionId" ->
  ~ invalid_identifier params "authMethodId" ->
  truthy (optional_get (secrets ctx) "BASIC_USERNAME") = true ->
  truthy (optional_get (secrets ctx) "BASIC_PASSWORD") = true ->
  url_absent params ctx ->
  outcome (invoke user_agent stringify utils_getBaseURL env params ctx) h =
    inl (FatalError "Unexpected error: No URL specified. Provide address parameter or ADDRESS environment variable") /\
  requests (trace (invoke user_agent stringify utils_getBaseURL env params ctx) h) = [].
Proof.
  intros Hsid Hamid Huser Hpass Hurl.
  exact (invoke_getBaseURL_throws user_agent stringify utils_getBaseURL env params ctx h _
           Hsid Hamid Huser Hpass (utils_getBaseURL_absent params ctx Hurl)).
Qed.

(** ** Concrete runs

    The scenarios of the script's test suite: a transport that answers
    the n-th request with the n-th scripted reply, the identifiers,
    secrets and address the tests use, and a fixed clock. *)

Definition sample_user_agent : string := "SGNL-CAEP-Hub/2.0".

(** Stands in for the platform's serializer in the concrete runs. *)
Definition sample_stringify (v : JsValue) : string :=
  match ToString v with
  | inr printed => printed
  | inl _ => ""
  end.

(** A response with the given status, body text and parsed body, and
    the reply that delivers it. *)
Definition answer (code : Z) (content : string) (data : JsValue) : Response :=
  {| status := code; statusText := ""; text := inr content; json := inr data |}.

Definition reply (code : Z) (content : string) (data : JsValue) : ForeignError + Response :=
  inr (answer code content data).

(** A response with the given status whose body stream breaks off:
    neither [text()] nor [json()] can read it. *)
Definition broken_answer (code : Z) : Response :=
  {| status := code; statusText := "";
     text := inl (TypeError "terminated"); json := inl (TypeError "terminated") |}.

Definition scripted (replies : list (ForeignError + Response)) : Env :=
  {| network := fun h _ => nth (length (exchanges h)) replies (inl (TypeError "fetch failed"));
     clock := fun _ => 1705314600123 |}.

(** The scripted transport answers the call in place [k] with its
    [k]-th reply. *)
Lemma scripted_answers replies k r (P : Response -> Prop) :
  nth_error replies k = Some (inr r) -> P r ->
  answers (scripted replies) [] k P.
Proof.
  intros Hk HP evs q Hcalls. exists r. split; [| exact HP].
  unfold scripted. cbn [network app]. rewrite Hcalls.
  exact (nth_error_nth replies k _ Hk).
Qed.

Definition sample_params : JsProps :=
  list_to_map [("sessionId", JsString "s_1234567890");
               ("authMethodId", JsString "ampw_1234567890")].

Definition sample_context : Context :=
  {| secrets := obj [("BASIC_USERNAME", JsString "testuser");
                     ("BASIC_PASSWORD", JsString "testpass")];
     environment := obj [("ADDRESS", JsString "https://boundary.example.com")] |}.

Definition context_without_address : Context :=
  {| secrets := secrets sample_context; environment := obj [] |}.

Definition token_answer : Response :=
  answer 200 "" (obj [("attributes", obj [("token", JsString "mock-token")])]).

Definition version_answer : Response :=
  answer 200 "" (obj [("version", JsNumber 1)]).

Definition token_reply : ForeignError + Response := inr token_answer.

Definition version_reply : ForeignError + Response := inr version_answer.

Definition sample_authenticate_request : Request :=
  authenticate_request sample_user_agent sample_stringify
    "ampw_1234567890" (JsString "testuser") (JsString "testpass")
    "https://boundary.example.com".

Definition sample_getSession_request : Request :=
  getSession_request sample_user_agent
    "s_1234567890" "mock-token" "https://boundary.example.com".

Definition sample_cancelSession_request : Request :=
  cancelSession_request sample_user_agent sample_stringify
    "s_1234567890" (JsString "s_1234567890") (JsNumber 1) "mock-token"
    "https://boundary.example.com".

Definition run_invoke (replies : list (ForeignError + Response))
           (params : JsProps) (context : Context) : list Event * (JsError + CancelResult.t) :=
  invoke sample_user_agent sample_stringify utils_getBaseURL (scripted replies) params context [].

Example run_success_urls :
  map url (requests (fst (run_invoke [token_reply; version_reply; reply 200 "" (obj [])]
                                     sample_params sample_context))) =
  ["https://boundary.example.com/v1/auth-methods/ampw_1234567890:authenticate";
   "https://boundary.example.com/v1/sessions/s_1234567890";
   "https://boundary.example.com/v1/sessions/s_1234567890:cancel"].
Proof. vm_compute. reflexivity. Qed.

(** A token that is a number of 22 digits reaches the header as the
    platform prints it. *)
Example run_numeric_token :
  map (fun q => headers q !! "Authorization")
      (requests (fst (run_invoke
                        [reply 200 "" (obj [("attributes", obj [("token", JsNumber (10 ^ 21))])]);
                         version_reply; reply 200 "" (obj [])]
                        sample_params sample_context))) =
  [None; Some "Bearer 1e+21"; Some "Bearer 1e+21"].
Proof. vm_compute. reflexivity. Qed.

(** A token that cannot be converted to a string ends the run after
    the pause that follows the authenticate call. *)
Example run_unprintable_token :
  pace (fst (run_invoke
               [reply 200 "" (obj [("attributes",
                                    obj [("token", obj [("toString", JsNumber 1)])])])]
               sample_params sample_context)) = [inl "POST"; inr 100] /\
  snd (run_invoke
         [reply 200 "" (obj [("attributes", obj [("token", obj [("toString", JsNumber 1)])])])]
         sample_params sample_context) =
    inl (FatalError "Unexpected error: Cannot convert object to primitive value").
Proof. split; vm_compute; reflexivity. Qed.

(** The run of the test suite: three 2xx replies. *)
Lemma invoke_success_witness :
  map (fun q => (method q, url q))
      (requests (fst (run_invoke [token_reply; version_reply; reply 200 "" (obj [])]
                                 sample_params sample_context))) =
    [("POST", "https://boundary.example.com/v1/auth-methods/ampw_1234567890:authenticate");
     ("GET", "https://boundary.example.com/v1/sessions/s_1234567890");
     ("POST", "https://boundary.example.com/v1/sessions/s_1234567890:cancel")] /\
  exists t,
    snd (run_invoke [token_reply; version_reply; reply 200 "" (obj [])]
                    sample_params sample_context) =
      inr {| CancelResult.sessionId := JsString "s_1234567890";
             CancelResult.authMethodId := JsString "ampw_1234567890";
             CancelResult.sessionCancelled := true;
             CancelResult.cancelledAt := toISOString t |} /\
    is_iso8601 (toISOString t) = true.
Proof.
  destruct (invoke_success sample_user_agent sample_stringify utils_getBaseURL
              (scripted [token_reply; version_reply; reply 200 "" (obj [])])
              sample_params sample_context [])
    as [Hresult Hcalls].
  { intros h'. unfold time_value. cbn. lia. }
  destruct Hcalls as (q1 & r1 & q2 & r2 & q3 & r3 & Hex & Hok1 & Hok2 & Hok3).
  - intros H. vm_compute in H. discriminate H.
  - intros H. vm_compute in H. discriminate H.
  - reflexivity.
  - reflexivity.
  - exists (JsString "https://boundary.example.com"), "https://boundary.example.com".
    split; reflexivity.
  - apply (scripted_answers _ 0 token_answer); [reflexivity |].
    split; [reflexivity |]. do 2 eexists. repeat split; reflexivity.
  - apply (scripted_answers _ 1 version_answer); [reflexivity |].
    split; [reflexivity |]. do 2 eexists. repeat split; reflexivity.
  - apply (scripted_answers _ 2 (answer 200 "" (obj []))); reflexivity.
  - destruct (Hresult q1 r1 q2 r2 q3 r3 [] Hex Hok1 Hok2 Hok3)
      as (sessionId & authMethodId & baseUrl & base & data1 & bearer & data2 & t &
          _ & Hsid & Hamid & _ & _ & _ & _ & _ & _ & _ & _ & _ & Hout & _ & Hiso).
    vm_compute in Hsid. injection Hsid as <-.
    vm_compute in Hamid. injection Hamid as <-.
    split; [vm_compute; reflexivity |].
    exists t. split; [exact Hout | exact Hiso].
Defined.

Definition params_without_sessionId : JsProps :=
  list_to_map [("authMethodId", JsString "ampw_1234567890")].

(** No [sessionId]: the first scenario of the test suite. *)
Lemma invoke_invalid_identifier_witness :
  invalid_identifier params_without_sessionId "sessionId" /\
  exists msg,
    snd (run_invoke [] params_without_sessionId sample_context) = inl (FatalError msg) /\
    msg = "Invalid or missing sessionId parameter" /\
    requests (fst (run_invoke [] params_without_sessionId sample_context)) = [].
Proof.
  assert (Hsid : invalid_identifier params_without_sessionId "sessionId") by exact I.
  split; [exact Hsid |].
  destruct (invoke_invalid_identifier sample_user_agent sample_stringify utils_getBaseURL (scripted [])
              params_without_sessionId sample_context [] (or_introl Hsid))
    as (msg & Hout & _ & Hmsg & _ & Hreq).
  exists msg. split; [exact Hout |]. split; [exact (Hmsg Hsid) | exact Hreq].
Defined.

(** C3 as stated fails: with no base URL configured and no [sessionId]
    either, the failure is the validation failure, and its message says
    nothing about a URL. *)
Lemma invoke_missing_base_url_counterexample :
  url_absent params_without_sessionId context_without_address /\
  snd (run_invoke [] params_without_sessionId context_without_address) =
    inl (FatalError "Invalid or missing sessionId parameter") /\
  String.index 0 "URL" "Invalid or missing sessionId parameter" = None.
Proof. repeat split. Qed.

(** Valid identifiers and secrets, no address: the test's scenario. *)
Lemma invoke_missing_base_url_witness :
  url_absent sample_params context_without_address /\
  snd (run_invoke [] sample_params context_without_address) =
    inl (FatalError "Unexpected error: No URL specified. Provide address parameter or ADDRESS environment variable") /\
  requests (fst (run_invoke [] sample_params context_without_address)) = [].
Proof.
  assert (Hurl : url_absent sample_params context_without_address) by (split; reflexivity).
  split; [exact Hurl |].
  apply (invoke_missing_base_url sample_user_agent sample_stringify (scripted [])
           sample_params context_without_address []).
  - intros H. vm_compute in H. discriminate H.
  - intros H. vm_compute in H. discriminate H.
  - reflexivity.
  - reflexivity.
  - exact Hurl.
Defined.

(** C4 as stated fails: the authenticate call is answered 401 and the
    body of the response cannot be read.  The error is fatal, but its
    message is the one of the failed read. *)
Lemma invoke_authenticate_unauthorized_counterexample :
  exchanges (fst (run_invoke [inr (broken_answer 401)] sample_params sample_context)) =
    [(sample_authenticate_request, inr (broken_answer 401))] /\
  status (broken_answer 401) = 401 /\
  snd (run_invoke [inr (broken_answer 401)] sample_params sample_context) =
    inl (FatalError "Unexpected error: terminated") /\
  String.index 0 "sername or password" "Unexpected error: terminated" = None.
Proof. repeat split; vm_compute; reflexivity. Qed.

(** The authenticate call is answered 401. *)
Lemma invoke_authenticate_unauthorized_witness :
  snd (run_invoke [reply 401 "" JsNull] sample_params sample_context) =
    inl (FatalError "Invalid username or password") /\
  requests (fst (run_invoke [reply 401 "" JsNull] sample_params sample_context)) =
    [sample_authenticate_request].
Proof.
  destruct (invoke_authenticate_unauthorized sample_user_agent sample_stringify utils_getBaseURL
              (scripted [reply 401 "" JsNull]) sample_params sample_context []
              sample_authenticate_request (answer 401 "" JsNull) [])
    as (Hout & _ & _ & _).
  - vm_compute. reflexivity.
  - left. reflexivity.
  - split; [exact Hout | vm_compute; reflexivity].
Defined.

(** C5 as stated fails: the read-session call is answered 404 and the
    body of the response cannot be read. *)
Lemma invoke_session_not_found_counterexample :
  exchanges (fst (run_invoke [token_reply; inr (broken_answer 404)]
                             sample_params sample_context)) =
    [(sample_authenticate_request, token_reply);
     (sample_getSession_request, inr (broken_answer 404))] /\
  status (broken_answer 404) = 404 /\
  snd (run_invoke [token_reply; inr (broken_answer 404)] sample_params sample_context) =
    inl (FatalError "Unexpected error: terminated") /\
  String.index 0 "ession not found" "Unexpected error: terminated" = None.
Proof. repeat split; vm_compute; reflexivity. Qed.

(** The read-session call is answered 404. *)
Lemma invoke_session_not_found_witness :
  snd (run_invoke [token_reply; reply 404 "" JsNull] sample_params sample_context) =
    inl (FatalError "Session not found: s_1234567890") /\
  requests (fst (run_invoke [token_reply; reply 404 "" JsNull] sample_params sample_context)) =
    [sample_authenticate_request; sample_getSession_request].
Proof.
  destruct (invoke_session_not_found sample_user_agent sample_stringify utils_getBaseURL
              (scripted [token_reply; reply 404 "" JsNull]) sample_params sample_context []
              sample_authenticate_request token_answer
              sample_getSession_request (answer 404 "" JsNull) [])
    as (id & baseUrl & base & data & bearer & Hid & Hout & _).
  - vm_compute. reflexivity.
  - reflexivity.
  - vm_compute in Hid. injection Hid as <-.
    split; [exact Hout | vm_compute; reflexivity].
Defined.

(** C6 as stated fails: the message of a 409 names the conflict and
    the possible earlier cancellation, then quotes the body; of a version
    that did not match it says nothing.  And when the body of the 409
    cannot be read, the message is the one of the failed read. *)
Lemma invoke_cancel_conflict_counterexample :
  snd (run_invoke [token_reply; version_reply; reply 409 "" JsNull]
                  sample_params sample_context) =
    inl (FatalError "Session conflict (may already be cancelled): ") /\
  String.index 0 "ersion" "Session conflict (may already be cancelled): " = None /\
  String.index 0 "ismatch" "Session conflict (may already be cancelled): " = None /\
  snd (run_invoke [token_reply; version_reply; inr (broken_answer 409)]
                  sample_params sample_context) =
    inl (FatalError "Unexpected error: terminated") /\
  String.index 0 "onflict" "Unexpected error: terminated" = None.
Proof. repeat split; vm_compute; reflexivity. Qed.

(** The cancel call is answered 409. *)
Lemma invoke_cancel_conflict_witness :
  snd (run_invoke [token_reply; version_reply; reply 409 "version mismatch" JsNull]
                  sample_params sample_context) =
    inl (FatalError "Session conflict (may already be cancelled): version mismatch") /\
  length (requests (fst (run_invoke [token_reply; version_reply;
                                     reply 409 "version mismatch" JsNull]
                                    sample_params sample_context))) = 3%nat.
Proof.
  destruct (invoke_cancel_conflict sample_user_agent sample_stringify utils_getBaseURL
              (scripted [token_reply; version_reply; reply 409 "version mismatch" JsNull])
              sample_params sample_context []
              (sample_authenticate_request, token_reply)
              (sample_getSession_request, version_reply)
              sample_cancelSession_request (answer 409 "version mismatch" JsNull) [])
    as (Hout & _).
  - vm_compute. reflexivity.
  - reflexivity.
  - split; [exact Hout | vm_compute; reflexivity].
Defined.

(** C7 as stated fails: the authenticate call is answered 503 and the
    body of the response cannot be read.  The error raised is fatal,
    not retryable. *)
Lemma invoke_error_classification_counterexample :
  exchanges (fst (run_invoke [inr (broken_answer 503)] sample_params sample_context)) =
    [(sample_authenticate_request, inr (broken_answer 503))] /\
  status (broken_answer 503) = 503 /\
  snd (run_invoke [inr (broken_answer 503)] sample_params sample_context) =
    inl (FatalError "Unexpected error: terminated") /\
  retryable (FatalError "Unexpected error: terminated") = Some false.
Proof. repeat split; vm_compute; reflexivity. Qed.

(** The read-session call is answered 503. *)
Lemma invoke_error_classification_witness :
  snd (run_invoke [token_reply; reply 503 "" JsNull] sample_params sample_context) =
    inl (RetryableError "Boundary API server error: 503") /\
  retryable (RetryableError "Boundary API server error: 503") = Some true.
Proof.
  destruct (proj1 (invoke_error_classification sample_user_agent sample_stringify utils_getBaseURL
                     (scripted [token_reply; reply 503 "" JsNull])
                     sample_params sample_context [])
              sample_getSession_request (answer 503 "" JsNull))
    as (msg & Hout & Hflag).
  - vm_compute. right. left. reflexivity.
  - right. cbn. lia.
  - assert (Hmsg : inl (RetryableError msg) =
                   snd (run_invoke [token_reply; reply 503 "" JsNull]
                                   sample_params sample_context)) by (symmetry; exact Hout).
    vm_compute in Hmsg. injection Hmsg as ->. split; [exact Hout | exact Hflag].
Defined.


Definition params_with_empty_sessionId : JsValue :=
  obj [("sessionId", JsString ""); ("authMethodId", JsString "ampw_1234567890");
       ("reason", JsString "timeout")].

Definition params_with_unprintable_reason : JsValue :=
  obj [("sessionId", JsString "s_1234567890"); ("authMethodId", JsString "ampw_1234567890");
       ("reason", obj [("toString", JsNumber 1)])].

(** C9 as stated fails in three ways.  A [sessionId] that is present
    but is the empty string is not echoed: ["unknown"] takes its place.
    [halt] raises when [reason] is an object whose own [toString]
    property is not a function: the log line cannot print it.  And it
    raises when it is called without parameters: there is nothing to
    destructure. *)
Lemma halt_result_counterexample :
  get params_with_empty_sessionId "sessionId" = JsString "" /\
  snd (halt (scripted []) params_with_empty_sessionId sample_context []) =
    inr {| HaltResult.sessionId := JsString "unknown";
           HaltResult.authMethodId := JsString "ampw_1234567890";
           HaltResult.reason := JsString "timeout";
           HaltResult.haltedAt := "2024-01-15T10:30:00.123Z";
           HaltResult.cleanupCompleted := true |} /\
  snd (halt (scripted []) params_with_unprintable_reason sample_context []) =
    inl (Thrown (TypeError "Cannot convert object to primitive value")) /\
  snd (halt (scripted []) JsUndefined sample_context []) =
    inl (Thrown (TypeError
                   "Cannot destructure property 'reason' of 'params' as it is undefined.")).
Proof. repeat split; vm_compute; reflexivity. Qed.

(** A session at version 0, and an empty token. *)
Lemma falsy_version_and_token_rejected_witness :
  snd (getSession sample_user_agent (scripted [reply 200 "" (obj [("version", JsNumber 0)])])
         (JsString "s_1234567890") (JsString "mock-token")
         (JsString "https://boundary.example.com") []) =
    inl (FatalError "No version returned from session") /\
  snd (authenticate sample_user_agent sample_stringify
         (scripted [reply 200 "" (obj [("attributes", obj [("token", JsString "")])])])
         (JsString "ampw_1234567890") (JsString "testuser") (JsString "testpass")
         (JsString "https://boundary.example.com") []) =
    inl (FatalError "No token returned from authentication").
Proof.
  split.
  - apply (proj1 (falsy_version_and_token_rejected sample_user_agent sample_stringify
                    (scripted [reply 200 "" (obj [("version", JsNumber 0)])]))
             (JsString "s_1234567890") (JsString "mock-token")
             (JsString "https://boundary.example.com")
             "s_1234567890" "mock-token" "https://boundary.example.com" []
             (answer 200 "" (obj [("version", JsNumber 0)]))
             (list_to_map [("version", JsNumber 0)]));
      reflexivity.
  - apply (proj2 (falsy_version_and_token_rejected sample_user_agent sample_stringify
                    (scripted [reply 200 "" (obj [("attributes", obj [("token", JsString "")])])]))
             (JsString "ampw_1234567890") (JsString "testuser") (JsString "testpass")
             (JsString "https://boundary.example.com")
             "ampw_1234567890" "https://boundary.example.com" []
             (answer 200 "" (obj [("attributes", obj [("token", JsString "")])]))
             (list_to_map [("attributes", obj [("token", JsString "")])])
             (list_to_map [("token", JsString "")]));
      reflexivity.
Defined.

(** ** Concrete runs for the further properties *)

Definition context_without_password : Context :=
  {| secrets := obj [("BASIC_USERNAME", JsString "testuser")];
     environment := environment sample_context |}.

Definition context_of_another_user : Context :=
  {| secrets := obj [("BASIC_USERNAME", JsString "admin");
                     ("BASIC_PASSWORD", JsString "hunter2")];
     environment := environment sample_context |}.

(** The password is missing. *)
Lemma invoke_missing_secrets_witness :
  snd (run_invoke [] sample_params context_without_password) =
    inl (FatalError "Missing required secrets: BASIC_USERNAME and BASIC_PASSWORD") /\
  requests (fst (run_invoke [] sample_params context_without_password)) = [].
Proof.
  apply (invoke_missing_secrets sample_user_agent sample_stringify utils_getBaseURL (scripted [])
           sample_params context_without_password []).
  - intros H. vm_compute in H. discriminate H.
  - intros H. vm_compute in H. discriminate H.
  - right. reflexivity.
Defined.

(** The transport rejects the authenticate call. *)
Lemma invoke_fetch_rejected_witness :
  snd (run_invoke [] sample_params sample_context) =
    inl (FatalError "Unexpected error: fetch failed") /\
  exists pre,
    exchanges (fst (run_invoke [] sample_params sample_context)) =
      pre ++ [(sample_authenticate_request, inl (TypeError "fetch failed"))].
Proof.
  destruct (invoke_fetch_rejected sample_user_agent sample_stringify utils_getBaseURL (scripted [])
              sample_params sample_context []
              sample_authenticate_request (TypeError "fetch failed"))
    as (Hout & _ & Hlast).
  - vm_compute. left. reflexivity.
  - split; [exact Hout | exact Hlast].
Defined.

(** The session is not found: the read-session call is the last. *)
Lemma invoke_stops_at_failed_call_witness :
  (exists e, snd (run_invoke [token_reply; reply 404 "" JsNull] sample_params sample_context) = inl e) /\
  exists pre,
    exchanges (fst (run_invoke [token_reply; reply 404 "" JsNull] sample_params sample_context)) =
      pre ++ [(sample_getSession_request, reply 404 "" JsNull)].
Proof.
  apply (invoke_stops_at_failed_call sample_user_agent sample_stringify utils_getBaseURL
           (scripted [token_reply; reply 404 "" JsNull]) sample_params sample_context []
           (sample_getSession_request, reply 404 "" JsNull)).
  - vm_compute. right. left. reflexivity.
  - reflexivity.
Defined.

(** The authenticate reply is a 200 with a body that is not JSON. *)
Lemma invoke_unreadable_body_witness :
  snd (run_invoke [inr {| status := 200; statusText := "OK"; text := inr "<html>";
                          json := inl {| error_name := "SyntaxError";
                                         error_message := "Unexpected token <" |} |}]
         sample_params sample_context) =
    inl (FatalError "Unexpected error: Unexpected token <").
Proof.
  apply (invoke_unreadable_body sample_user_agent sample_stringify utils_getBaseURL
           (scripted [inr {| status := 200; statusText := "OK"; text := inr "<html>";
                             json := inl {| error_name := "SyntaxError";
                                            error_message := "Unexpected token <" |} |}])
           sample_params sample_context [] 0%nat sample_authenticate_request
           {| status := 200; statusText := "OK"; text := inr "<html>";
              json := inl {| error_name := "SyntaxError";
                             error_message := "Unexpected token <" |} |}
           {| error_name := "SyntaxError"; error_message := "Unexpected token <" |}).
  - vm_compute. reflexivity.
  - lia.
  - reflexivity.
  - reflexivity.
Defined.

(** The read-session reply is a 200 whose body is [null]. *)
Lemma invoke_null_body_witness :
  (exists msg,
      snd (run_invoke [token_reply; reply 200 "null" JsNull] sample_params sample_context) =
        inl (FatalError ("Unexpected error: " +:+ msg))) /\
  length (exchanges (fst (run_invoke [token_reply; reply 200 "null" JsNull]
                                     sample_params sample_context))) = 2%nat.
Proof.
  apply (invoke_null_body sample_user_agent sample_stringify utils_getBaseURL
           (scripted [token_reply; reply 200 "null" JsNull]) sample_params sample_context []
           1%nat sample_getSession_request (answer 200 "null" JsNull) JsNull).
  - vm_compute. reflexivity.
  - lia.
  - reflexivity.
  - reflexivity.
  - reflexivity.
Defined.

(** The authenticate reply has no token. *)
Lemma invoke_no_token_witness :
  snd (run_invoke [reply 200 "" (obj [("attributes", obj [])])] sample_params sample_context) =
    inl (FatalError "No token returned from authentication").
Proof.
  apply (invoke_no_token sample_user_agent sample_stringify utils_getBaseURL
           (scripted [reply 200 "" (obj [("attributes", obj [])])]) sample_params sample_context []
           sample_authenticate_request (answer 200 "" (obj [("attributes", obj [])]))
           (obj [("attributes", obj [])]) []).
  - vm_compute. reflexivity.
  - reflexivity.
  - reflexivity.
  - reflexivity.
  - reflexivity.
Defined.

(** The read-session reply has no version. *)
Lemma invoke_no_version_witness :
  snd (run_invoke [token_reply; reply 200 "" (obj [])] sample_params sample_context) =
    inl (FatalError "No version returned from session").
Proof.
  apply (invoke_no_version sample_user_agent sample_stringify utils_getBaseURL
           (scripted [token_reply; reply 200 "" (obj [])]) sample_params sample_context []
           (sample_authenticate_request, token_reply)
           sample_getSession_request (answer 200 "" (obj [])) (obj []) []).
  - vm_compute. reflexivity.
  - reflexivity.
  - reflexivity.
  - reflexivity.
  - reflexivity.
Defined.

(** The token is refused when the session is read. *)
Lemma invoke_token_rejected_witness :
  snd (run_invoke [token_reply; reply 401 "" JsNull] sample_params sample_context) =
    inl (FatalError "Invalid or expired authentication token") /\
  length (exchanges (fst (run_invoke [token_reply; reply 401 "" JsNull]
                                     sample_params sample_context))) = 2%nat.
Proof.
  apply (invoke_token_rejected sample_user_agent sample_stringify utils_getBaseURL
           (scripted [token_reply; reply 401 "" JsNull]) sample_params sample_context []
           0%nat sample_getSession_request (answer 401 "" JsNull)).
  - vm_compute. reflexivity.
  - reflexivity.
Defined.

(** The session is gone when the cancel request arrives. *)
Lemma invoke_cancel_not_found_witness :
  exists id,
    prop sample_params "sessionId" = JsString id /\
    snd (run_invoke [token_reply; version_reply; reply 404 "" JsNull]
                    sample_params sample_context) =
      inl (FatalError ("Session not found: " +:+ id)) /\
    @nil (Request * (ForeignError + Response)) = [].
Proof.
  apply (invoke_cancel_not_found sample_user_agent sample_stringify utils_getBaseURL
           (scripted [token_reply; version_reply; reply 404 "" JsNull])
           sample_params sample_context []
           (sample_authenticate_request, token_reply)
           (sample_getSession_request, version_reply)
           sample_cancelSession_request (answer 404 "" JsNull) []).
  - vm_compute. reflexivity.
  - reflexivity.
Defined.

(** Reading the session is forbidden: a 403 has no branch of its own. *)
Lemma invoke_other_status_witness :
  snd (run_invoke [token_reply; reply 403 "denied" JsNull] sample_params sample_context) =
    inl (FatalError "Failed to get session: 403  - denied").
Proof.
  destruct (invoke_other_status sample_user_agent sample_stringify utils_getBaseURL
              (scripted [token_reply; reply 403 "denied" JsNull])
              sample_params sample_context []) as (_ & Hread & _).
  destruct (Hread (sample_authenticate_request, token_reply)
              sample_getSession_request (answer 403 "denied" JsNull) []) as (Hout & _).
  - vm_compute. reflexivity.
  - reflexivity.
  - cbn. lia.
  - cbn. lia.
  - cbn. lia.
  - cbn. lia.
  - exact Hout.
Defined.

(** The service is unavailable. *)
Lemma invoke_transient_messages_witness :
  snd (run_invoke [reply 503 "" JsNull] sample_params sample_context) =
    inl (RetryableError "Boundary API server error: 503").
Proof.
  destruct (invoke_transient_messages sample_user_agent sample_stringify utils_getBaseURL
              (scripted [reply 503 "" JsNull]) sample_params sample_context []
              sample_authenticate_request (answer 503 "" JsNull)) as (_ & Hserver).
  - vm_compute. left. reflexivity.
  - apply Hserver. cbn. lia.
Defined.

(** The read request of a run that ends in a conflict. *)
Lemma invoke_request_headers_witness :
  headers sample_getSession_request !! "Content-Type" = Some "application/json" /\
  headers sample_getSession_request !! "User-Agent" = Some sample_user_agent.
Proof.
  apply (invoke_request_headers sample_user_agent sample_stringify utils_getBaseURL
           (scripted [token_reply; version_reply; reply 409 "conflict" JsNull])
           sample_params sample_context [] sample_getSession_request).
  vm_compute. right. left. reflexivity.
Defined.

(** The cancel request of the successful run carries the token. *)
Lemma invoke_bearer_token_witness :
  headers sample_authenticate_request !! "Authorization" = None /\
  exists data bearer,
    json token_answer = inr data /\
    ToString (get (get data "attributes") "token") = inr bearer /\
    headers sample_cancelSession_request !! "Authorization" = Some ("Bearer " +:+ bearer).
Proof.
  apply (invoke_bearer_token sample_user_agent sample_stringify utils_getBaseURL
           (scripted [token_reply; version_reply; reply 200 "" (obj [])])
           sample_params sample_context []
           sample_authenticate_request token_answer 1%nat
           sample_cancelSession_request (reply 200 "" (obj []))).
  - vm_compute. reflexivity.
  - vm_compute. reflexivity.
Defined.

(** The result of the successful run. *)
Lemma invoke_result_means_cancelled_witness :
  exists q1 r1 q2 r2 q3 r3,
    exchanges (fst (run_invoke [token_reply; version_reply; reply 200 "" (obj [])]
                               sample_params sample_context)) =
      [(q1, inr r1); (q2, inr r2); (q3, inr r3)] /\
    ok r1 = true /\ ok r2 = true /\ ok r3 = true.
Proof.
  apply (invoke_result_means_cancelled sample_user_agent sample_stringify utils_getBaseURL
           (scripted [token_reply; version_reply; reply 200 "" (obj [])])
           sample_params sample_context []
           {| CancelResult.sessionId := JsString "s_1234567890";
              CancelResult.authMethodId := JsString "ampw_1234567890";
              CancelResult.sessionCancelled := true;
              CancelResult.cancelledAt := "2024-01-15T10:30:00.123Z" |}).
  vm_compute. reflexivity.
Defined.

(** The cancel request of a run that ends in a conflict. *)
Lemma invoke_cancel_sends_version_read_witness :
  exists data,
    json version_answer = inr data /\
    method sample_cancelSession_request = "POST" /\
    url sample_cancelSession_request = url sample_getSession_request +:+ ":cancel" /\
    body sample_cancelSession_request =
      Some (sample_stringify (obj [("id", prop sample_params "sessionId");
                                   ("version", get data "version")])) /\
    body sample_getSession_request = None.
Proof.
  apply (invoke_cancel_sends_version_read sample_user_agent sample_stringify utils_getBaseURL
           (scripted [token_reply; version_reply; reply 409 "conflict" JsNull])
           sample_params sample_context []
           (sample_authenticate_request, token_reply)
           sample_getSession_request version_answer
           sample_cancelSession_request (reply 409 "conflict" JsNull) []).
  vm_compute. reflexivity.
Defined.

(** Two users cancel a session that is not found: the same lines. *)
Lemma invoke_console_hides_credentials_witness :
  console_lines (fst (run_invoke [token_reply; reply 404 "" JsNull]
                                 sample_params sample_context)) =
    console_lines (fst (run_invoke [token_reply; reply 404 "" JsNull]
                                   sample_params context_of_another_user)) /\
  forall e,
    snd (run_invoke [token_reply; reply 404 "" JsNull] sample_params sample_context) = inl e ->
    snd (run_invoke [token_reply; reply 404 "" JsNull] sample_params context_of_another_user) =
      inl e.
Proof.
  apply (invoke_console_hides_credentials sample_user_agent sample_stringify utils_getBaseURL
           (scripted [token_reply; reply 404 "" JsNull])
           sample_params sample_context context_of_another_user [] []).
  - reflexivity.
  - reflexivity.
  - reflexivity.
  - vm_compute. reflexivity.
Defined.

(** The error of a refused login, handed to the [error] handler. *)
Lemma invoke_failure_then_error_witness :
  (exists flag, retryable (FatalError "Invalid username or password") = Some flag) /\
  snd (error sample_params (FatalError "Invalid username or password") sample_context []) =
    inl (FatalError "Invalid username or password").
Proof.
  destruct (invoke_failure_then_error sample_user_agent sample_stringify utils_getBaseURL
              (scripted [reply 401 "" JsNull]) sample_params sample_context []
              (FatalError "Invalid username or password")) as (Hflag & Hagain).
  - vm_compute. reflexivity.
  - split; [exact Hflag |]. exact (proj1 (Hagain sample_params sample_context [])).
Defined.

(** [halt] called with no [sessionId] and no [reason]. *)
Lemma halt_fields_defined_witness :
  exists r,
    snd (halt (scripted []) (JsObject params_without_sessionId) sample_context []) = inr r /\
    truthy (HaltResult.sessionId r) = true /\
    truthy (HaltResult.authMethodId r) = true /\
    truthy (HaltResult.reason r) = true /\
    is_iso8601 (HaltResult.haltedAt r) = true.
Proof.
  apply (halt_fields_defined (scripted []) (JsObject params_without_sessionId) sample_context []
           "undefined").
  - intros h'. unfold time_value. cbn. lia.
  - reflexivity.
  - reflexivity.
Defined.
